(** * License server: lifecycle engine

    A shallow embedding of the license trust protocol of the server:

    - [utils/crypto.js]: [generateLicenseKey], [signLicense],
      [verifyLicenseSignature], [hashDeviceId];
    - [models/database-pg.js]: the [LicenseDatabase] class that [server.js]
      loads, with its operations on the tables [licenses],
      [validation_logs] and [activity_logs].  Every method is [async].
    - [routes/licenses.js], the copy written for that class: the handlers
      of [POST /generate], [POST /activate], [POST /validate],
      [POST /generate-offline], [POST /:licenseKey/revoke] and
      [DELETE /:licenseKey].  The handlers of Activate and Validate await
      every database call; the operator routes await none.

    The better-sqlite3 class ([models/database.js], with its foreign key
    from [validation_logs] to [licenses]) and the copy of the routes that
    awaits nothing are not what the server runs and are not modelled.
    Console output is left out, and so is the diagnostic
    [getAllLicenses({ limit: 10 })] at the start of Activate, a read whose
    rows are only printed.

    Modelling choices.
    - A table is the list of its rows, in insertion order.
    - A timestamp is the number of milliseconds since the epoch ([Z]); the
      ISO string the code stores is the rendering of that number, and
      [new Date(x) < new Date()] compares the two numbers.  One request reads
      one clock value [now].
    - A handler is a term of the free monad [prog] over the database calls:
      every [db.*] call is an [Await] node.  An awaited call ([call]) hands
      its rows or its failure to the handler; a call that is not awaited
      ([fire]) reaches the store all the same, but the handler holds a
      promise and sees neither.  [run] executes the calls of one request one
      after the other; [step] executes one call, so that two requests can
      be interleaved at the database calls.
    - SHA-256, RSA signing, [JSON.stringify], the private key and the
      environment belong to the platform and are the fields of the class
      [Platform]. *)

From Stdlib Require Import ZArith NArith List String Ascii Bool DecimalString Lia.
Import ListNotations.
Local Open Scope string_scope.
Local Open Scope Z_scope.

(** ** JavaScript values that cross the HTTP boundary *)

#[warnings="-register-all"]
Inductive json : Type :=
| JNull
| JBool (b : bool)
| JNum (n : Z)
| JStr (s : string)
| JDate (ms : Z)                       (* [toISOString()] of that instant *)
| JObj (fields : list (string * json)).

Record response := mkResponse { status_code : Z; body : json }.

(** [res.json(o)] answers 200, [res.status(c).json(o)] answers [c]. *)
Definition res_json (fields : list (string * json)) : response :=
  mkResponse 200 (JObj fields).
Definition res_status_json (c : Z) (fields : list (string * json)) : response :=
  mkResponse c (JObj fields).

(** [!x] for a body field that is a string when present. *)
Definition falsy (x : option string) : bool :=
  match x with
  | None => true
  | Some s => String.eqb s ""
  end.

(** [x || null] *)
Definition or_null (x : option string) : option string :=
  if falsy x then None else x.

Definition json_of_string (x : option string) : json :=
  match x with Some s => JStr s | None => JNull end.

Definition json_of_date (x : option Z) : json :=
  match x with Some t => JDate t | None => JNull end.

(** [a === b] where [a] is a nullable column and [b] a string. *)
Definition strict_eq (a : option string) (b : string) : bool :=
  match a with
  | Some s => String.eqb s b
  | None => false
  end.

(** [new Date(v).getTime()] for a nullable timestamp column: [new Date(null)]
    is the epoch. *)
Definition getTime (v : option Z) : Z :=
  match v with Some t => t | None => 0 end.

Definition ninety_days : Z := 90 * 24 * 60 * 60 * 1000.

(** Field names of an object, in insertion order (the order [JSON.stringify]
    follows). *)
Definition keys (o : list (string * json)) : list string := map fst o.

(** ** Exceptions *)

Inductive exn : Type :=
| ReferenceError (identifier : string)
| RangeError (message : string)
| UniqueViolation (constraint : string).

(** ** The platform

    What Node and the deployment provide: the hash, the RSA primitives,
    [JSON.stringify], the key that [loadKeys] reads at boot and the
    environment. *)

Class Platform := {
  (** [crypto.createHash('sha256').update(s).digest('hex')] *)
  sha256_hex : string -> string;
  (** [createSign('SHA256')], [update(m)], [sign(privateKey, 'base64')] *)
  rsa_sha256_sign : string -> string -> string;
  (** [createVerify('SHA256')], [update(m)], [verify(publicKey, s, 'base64')];
      the call either answers or throws. *)
  rsa_sha256_verify : string -> string -> string -> exn + bool;
  (** [JSON.stringify] on the plain data of [json]. *)
  JSON_stringify : json -> string;
  (** The private key that [loadKeys] reads at boot, a valid PEM key. *)
  privateKey : string;
  (** [parseInt(process.env.LICENSE_VALIDITY_DAYS)], [None] when it is NaN. *)
  LICENSE_VALIDITY_DAYS : option Z
}.

(** ** The tables *)

(** The three texts that the code writes to the column [status]:
    ['pending'], ['active'], ['revoked']. *)
Inductive license_status : Type := pending | active | revoked.

Definition status_eqb (a b : license_status) : bool :=
  match a, b with
  | pending, pending | active, active | revoked, revoked => true
  | _, _ => false
  end.

Record license := mkLicense {
  license_key : string;
  device_id_hash : option string;
  kiosk_name : string;
  location_restaurant : option string;
  location_country : option string;
  location_region : option string;
  status : license_status;
  issued_at : Z;
  expires_at : Z;
  activated_at : option Z;
  last_validated_at : option Z;
  revoked_at : option Z;
  revoke_reason : option string;
  updated_at : Z
}.

Record validation_log := mkValidationLog {
  vl_license_key : string;
  vl_device_id_hash : string;
  vl_validation_type : string;
  vl_success : bool;
  vl_error_message : option string;
  vl_ip_address : option string;
  vl_user_agent : option string
}.

Record activity_log := mkActivityLog {
  al_user_id : option Z;
  al_action : string;
  al_resource_type : option string;
  al_resource_id : option string;
  al_details : option string;
  al_ip_address : option string
}.

Record database := mkDatabase {
  licenses : list license;
  validation_logs : list validation_log;
  activity_logs : list activity_log
}.

(** ** Arguments of the database calls *)

Record location := mkLocation {
  restaurant : option string;
  country : option string;
  region : option string
}.

Record licenseData := mkLicenseData {
  ld_licenseKey : string;
  ld_kioskName : string;
  ld_location : location;
  ld_issuedAt : Z;
  ld_expiresAt : Z
}.

Record logData := mkLogData {
  licenseKey : string;
  deviceIdHash : string;
  validationType : string;
  success : bool;
  errorMessage : option string;
  ipAddress : option string;
  userAgent : option string
}.

Record activityData := mkActivityData {
  userId : option Z;
  action : string;
  resourceType : option string;
  resourceId : option string;
  details : option string;
  ad_ipAddress : option string
}.

(** ** LicenseDatabase (models/database-pg.js)

    [licenses.license_key] is [UNIQUE NOT NULL]; [validation_logs] and
    [activity_logs] reference no other table. *)

(** [SELECT * FROM licenses WHERE license_key = $1], then [rows[0]]. *)
Fixpoint select_by_key (k : string) (rows : list license) : option license :=
  match rows with
  | [] => None
  | l :: rest =>
      if String.eqb (license_key l) k then Some l else select_by_key k rest
  end.

(** [UPDATE licenses SET ... WHERE license_key = $n]: every row with that key
    is rewritten, whatever its other columns hold. *)
Definition update_by_key (k : string) (set : license -> license)
    (rows : list license) : list license :=
  map (fun l => if String.eqb (license_key l) k then set l else l) rows.

Definition getLicenseByKey (k : string) (db : database) : option license :=
  select_by_key k (licenses db).

(** [INSERT INTO licenses ...]: [license_key] is [UNIQUE NOT NULL]; the new
    row is [pending], with the nullable columns null. *)
Definition createLicense (d : licenseData) (now : Z) (db : database)
    : exn + database :=
  match select_by_key (ld_licenseKey d) (licenses db) with
  | Some _ => inl (UniqueViolation "licenses_license_key_key")
  | None =>
      inr (mkDatabase
             (licenses db ++
              [mkLicense (ld_licenseKey d) None (ld_kioskName d)
                 (or_null (restaurant (ld_location d)))
                 (or_null (country (ld_location d)))
                 (or_null (region (ld_location d)))
                 pending (ld_issuedAt d) (ld_expiresAt d)
                 None None None None now])
             (validation_logs db) (activity_logs db))
  end.

Definition set_activated (h : string) (now : Z) (l : license) : license :=
  mkLicense (license_key l) (Some h) (kiosk_name l)
    (location_restaurant l) (location_country l) (location_region l)
    active (issued_at l) (expires_at l)
    (Some now) (Some now) (revoked_at l) (revoke_reason l) now.

Definition set_validated (now : Z) (l : license) : license :=
  mkLicense (license_key l) (device_id_hash l) (kiosk_name l)
    (location_restaurant l) (location_country l) (location_region l)
    (status l) (issued_at l) (expires_at l)
    (activated_at l) (Some now) (revoked_at l) (revoke_reason l) now.

Definition set_revoked (reason : string) (now : Z) (l : license) : license :=
  mkLicense (license_key l) (device_id_hash l) (kiosk_name l)
    (location_restaurant l) (location_country l) (location_region l)
    revoked (issued_at l) (expires_at l)
    (activated_at l) (last_validated_at l) (Some now) (Some reason) now.

Definition with_licenses (db : database) (rows : list license) : database :=
  mkDatabase rows (validation_logs db) (activity_logs db).

(** [UPDATE licenses SET device_id_hash = $1, status = 'active', ...
     WHERE license_key = $5] *)
Definition activateLicense (k h : string) (now : Z) (db : database) : database :=
  with_licenses db (update_by_key k (set_activated h now) (licenses db)).

(** [UPDATE licenses SET last_validated_at = $1, updated_at = $2
     WHERE license_key = $3] *)
Definition updateValidation (k : string) (now : Z) (db : database) : database :=
  with_licenses db (update_by_key k (set_validated now) (licenses db)).

(** [UPDATE licenses SET status = 'revoked', revoked_at = $1,
     revoke_reason = $2, updated_at = $3 WHERE license_key = $4] *)
Definition revokeLicense (k reason : string) (now : Z) (db : database)
    : database :=
  with_licenses db (update_by_key k (set_revoked reason now) (licenses db)).

(** [INSERT INTO validation_logs ...] *)
Definition logValidation (d : logData) (db : database) : database :=
  mkDatabase (licenses db)
    (validation_logs db ++
     [mkValidationLog (licenseKey d) (deviceIdHash d) (validationType d)
        (success d) (or_null (errorMessage d)) (or_null (ipAddress d))
        (or_null (userAgent d))])
    (activity_logs db).

(** [INSERT INTO activity_logs ...] ([userId || null]: the id 0 is stored as
    null). *)
Definition logActivity (d : activityData) (db : database) : database :=
  mkDatabase (licenses db) (validation_logs db)
    (activity_logs db ++
     [mkActivityLog
        (match userId d with Some 0 => None | u => u end)
        (action d) (or_null (resourceType d)) (or_null (resourceId d))
        (or_null (details d)) (or_null (ad_ipAddress d))]).

(** ** Handlers as programs over database calls *)

Inductive db_op : Type -> Type :=
| CreateLicense (d : licenseData) : db_op unit
| GetLicenseByKey (k : string) : db_op (option license)
| ActivateLicense (k h : string) : db_op unit
| UpdateValidation (k : string) : db_op unit
| RevokeLicense (k reason : string) : db_op unit
| LogValidation (d : logData) : db_op unit
| LogActivity (d : activityData) : db_op unit.

Definition exec {B : Type} (op : db_op B) (now : Z) (db : database)
    : (exn + B) * database :=
  match op in db_op T return (exn + T) * database with
  | CreateLicense d =>
      match createLicense d now db with
      | inl e => (inl e, db)
      | inr db' => (inr tt, db')
      end
  | GetLicenseByKey k => (inr (getLicenseByKey k db), db)
  | ActivateLicense k h => (inr tt, activateLicense k h now db)
  | UpdateValidation k => (inr tt, updateValidation k now db)
  | RevokeLicense k reason => (inr tt, revokeLicense k reason now db)
  | LogValidation d => (inr tt, logValidation d db)
  | LogActivity d => (inr tt, logActivity d db)
  end.

Inductive prog (A : Type) : Type :=
| Ret (a : A)
| Throw (e : exn)
| Await (B : Type) (op : db_op B) (k : exn + B -> prog A).

Arguments Ret {A} a.
Arguments Throw {A} e.
Arguments Await {A B} op k.

Fixpoint bind {A C : Type} (m : prog A) (f : A -> prog C) : prog C :=
  match m with
  | Ret a => f a
  | Throw e => Throw e
  | Await op k => Await op (fun r => bind (k r) f)
  end.

(** [try { m } catch (error) { h }] *)
Fixpoint try_catch {A : Type} (m : prog A) (h : exn -> prog A) : prog A :=
  match m with
  | Ret a => Ret a
  | Throw e => h e
  | Await op k => Await op (fun r => try_catch (k r) h)
  end.

(** [await db.m(...)]: the rows, or the failure thrown at the call site. *)
Definition call {B : Type} (op : db_op B) : prog B :=
  Await op (fun r => match r with inl e => Throw e | inr b => Ret b end).

(** What an [async] method returns at once. *)
Inductive promise : Type := Promise.

(** [db.m(...)] without [await]: the query goes to the pool and is executed;
    the handler gets the promise, neither the rows nor a rejection. *)
Definition fire {B : Type} (op : db_op B) : prog promise :=
  Await op (fun _ => Ret Promise).

(** [!p] for a promise: an object is truthy. *)
Definition not_promise (p : promise) : bool := false.

Notation "x <- m ;; k" := (bind m (fun x => k))
  (at level 61, m at next level, right associativity).
Notation "m ;;; k" := (bind m (fun _ => k))
  (at level 61, right associativity).

(** Sequential execution: each call completes before the next statement. *)
Fixpoint run {A : Type} (m : prog A) (now : Z) (db : database)
    : (exn + A) * database :=
  match m with
  | Ret a => (inr a, db)
  | Throw e => (inl e, db)
  | Await op k =>
      let '(r, db') := exec op now db in run (k r) now db'
  end.

(** One database call of a handler. *)
Definition step {A : Type} (m : prog A) (now : Z) (db : database)
    : prog A * database :=
  match m with
  | Await op k => let '(r, db') := exec op now db in (k r, db')
  | _ => (m, db)
  end.

(** An identifier that no enclosing scope declares. *)
Definition unbound {A : Type} (identifier : string) : prog A :=
  Throw (ReferenceError identifier).

(** ** utils/crypto.js and routes/licenses.js *)

Section LicenseServer.

Context {platform : Platform}.

(** *** utils/crypto.js *)

Definition hex_digit (n : N) : ascii :=
  match n with
  | 0 => "0" | 1 => "1" | 2 => "2" | 3 => "3" | 4 => "4" | 5 => "5"
  | 6 => "6" | 7 => "7" | 8 => "8" | 9 => "9" | 10 => "a" | 11 => "b"
  | 12 => "c" | 13 => "d" | 14 => "e" | _ => "f"
  end%N%char.

(** [buffer.toString('hex')] *)
Fixpoint toString_hex (bytes : list Byte.byte) : string :=
  match bytes with
  | [] => EmptyString
  | b :: rest =>
      String (hex_digit (N.div (Byte.to_N b) 16))
        (String (hex_digit (N.modulo (Byte.to_N b) 16)) (toString_hex rest))
  end.

Definition upper_ascii (c : ascii) : ascii :=
  let n := N_of_ascii c in
  if ((97 <=? n) && (n <=? 122))%N then ascii_of_N (n - 32) else c.

Fixpoint toUpperCase (s : string) : string :=
  match s with
  | EmptyString => EmptyString
  | String c rest => String (upper_ascii c) (toUpperCase rest)
  end.

Definition join_dash (l : list string) : string := String.concat "-" l.

(** [generateLicenseKey(prefix, country)]: [year] is
    [new Date().getFullYear()], [randomBytes i] the two bytes that the
    [i]-th call of [crypto.randomBytes(2)] returns. *)
Definition generateLicenseKey (year : N) (randomBytes : nat -> list Byte.byte)
    (prefix country : string) : string :=
  let segments :=
    map (fun i => substring 0 4 (toUpperCase (toString_hex (randomBytes i))))
        (seq 0 4) in
  prefix ++ "-" ++ country ++ "-" ++ NilZero.string_of_uint (N.to_uint year)
         ++ "-" ++ join_dash segments.

(** [signLicense(licenseData, privateKey)] *)
Definition signLicense (licenseData : json) (key : string) : string :=
  rsa_sha256_sign key (JSON_stringify licenseData).

(** [verifyLicenseSignature(licenseData, signature, publicKey)] *)
Definition verifyLicenseSignature (licenseData : json)
    (signature publicKey : string) : exn + bool :=
  match rsa_sha256_verify publicKey (JSON_stringify licenseData) signature with
  | inl _ => inr false                    (* catch (error) { return false } *)
  | inr b => inr b
  end.

(** [hashDeviceId(deviceId)] *)
Definition hashDeviceId (deviceId : string) : string := sha256_hex deviceId.

(** [new Date(ms).toISOString()] throws outside the range of [Date]. *)
Definition toISOString (ms : Z) : prog Z :=
  if Z.abs ms <=? 8640000000000000 then Ret ms
  else Throw (RangeError "Invalid time value").

(** *** routes/licenses.js *)

(** The body and the caller metadata of a kiosk request. *)
Record device_request := mkDeviceRequest {
  body_licenseKey : option string;
  body_deviceId : option string;
  ip : option string;
  user_agent : option string
}.

Definition str (x : option string) : string :=
  match x with Some s => s | None => "" end.

Definition error_body (message : string) : list (string * json) :=
  [("error", JStr message)].

(** [license.status === 'active' && license.device_id_hash] *)
Definition already_activated (l : license) : bool :=
  status_eqb (status l) active && negb (falsy (device_id_hash l)).

(** The object [licenseResponse] of the branch "Same device, return existing
    license". *)
Definition existing_license (license : license) (deviceHash : string)
    : list (string * json) :=
  [("licenseKey", JStr (license_key license));
   ("deviceId", JStr deviceHash);
   ("kioskName", JStr (kiosk_name license));
   ("activatedAt", json_of_date (activated_at license));
   ("expiresAt", JDate (expires_at license));
   ("lastValidated", json_of_date (last_validated_at license));
   ("graceExpiresAt",
    JDate (getTime (last_validated_at license) + ninety_days))].

(** The object [licenseResponse] built after [db.activateLicense]. *)
Definition activated_license (license : license) (deviceHash : string)
    (now : Z) : list (string * json) :=
  [("licenseKey", JStr (license_key license));
   ("deviceId", JStr deviceHash);
   ("kioskName", JStr (kiosk_name license));
   ("location",
    JObj [("restaurant", json_of_string (location_restaurant license));
          ("country", json_of_string (location_country license));
          ("region", json_of_string (location_region license))]);
   ("activatedAt", JDate now);
   ("expiresAt", JDate (expires_at license));
   ("lastValidated", JDate now);
   ("graceExpiresAt", JDate (now + ninety_days))].

(** [res.json({ success: true, license: { ...licenseResponse, signature } })] *)
Definition license_json (licenseResponse : list (string * json))
    (signature : string) : response :=
  res_json
    [("success", JBool true);
     ("license", JObj (licenseResponse ++ [("signature", JStr signature)]))].

(** [router.post('/activate', ...)] *)
Definition post_activate (now : Z) (req : device_request) : prog response :=
  try_catch
    (if falsy (body_licenseKey req) || falsy (body_deviceId req) then
       Ret (res_status_json 400 (error_body "License key and device ID required"))
     else
       let licenseKey := str (body_licenseKey req) in
       let deviceId := str (body_deviceId req) in
       license <- call (GetLicenseByKey licenseKey) ;;
       match license with
       | None =>
           call (LogValidation
                   (mkLogData licenseKey (hashDeviceId deviceId) "activation"
                      false (Some "License key not found")
                      (ip req) (user_agent req))) ;;;
           Ret (res_status_json 404
                  [("error", JStr "License key not found");
                   ("hint",
                    JStr "Please generate a license first using the admin portal")])
       | Some license =>
           if already_activated license then
             let deviceHash := hashDeviceId deviceId in
             if strict_eq (device_id_hash license) deviceHash then
               let licenseResponse := existing_license license deviceHash in
               let signature := signLicense (JObj licenseResponse) privateKey in
               Ret (license_json licenseResponse signature)
             else
               call (LogValidation
                       (mkLogData licenseKey deviceHash "activation" false
                          (Some "License already activated on another device")
                          (ip req) (user_agent req))) ;;;
               Ret (res_status_json 403
                      (error_body "License already activated on another device"))
           else if status_eqb (status license) revoked then
             call (LogValidation
                     (mkLogData licenseKey (hashDeviceId deviceId) "activation"
                        false (Some "License has been revoked")
                        (ip req) (user_agent req))) ;;;
             Ret (res_status_json 403
                    [("error", JStr "License has been revoked");
                     ("reason", json_of_string (revoke_reason license))])
           else if expires_at license <? now then
             call (LogValidation
                     (mkLogData licenseKey (hashDeviceId deviceId) "activation"
                        false (Some "License has expired")
                        (ip req) (user_agent req))) ;;;
             Ret (res_status_json 403 (error_body "License has expired"))
           else
             let deviceHash := hashDeviceId deviceId in
             call (ActivateLicense licenseKey deviceHash) ;;;
             let licenseResponse := activated_license license deviceHash now in
             let signature := signLicense (JObj licenseResponse) privateKey in
             call (LogValidation
                     (mkLogData licenseKey deviceHash "activation" true None
                        (ip req) (user_agent req))) ;;;
             Ret (license_json licenseResponse signature)
       end)
    (fun _ => Ret (res_status_json 500 (error_body "Activation failed"))).

(** [router.post('/validate', ...)].  The handler declares
    [const deviceHash]; the log records after the first one name
    [deviceIdHash], which neither the handler, the module nor the global
    object declares, so evaluating the argument of [db.logValidation]
    throws before the call is made. *)
Definition post_validate (now : Z) (req : device_request) : prog response :=
  try_catch
    (if falsy (body_licenseKey req) || falsy (body_deviceId req) then
       Ret (res_status_json 400 (error_body "License key and device ID required"))
     else
       let licenseKey := str (body_licenseKey req) in
       let deviceId := str (body_deviceId req) in
       license <- call (GetLicenseByKey licenseKey) ;;
       match license with
       | None =>
           call (LogValidation
                   (mkLogData licenseKey (hashDeviceId deviceId) "periodic"
                      false (Some "License key not found")
                      (ip req) (user_agent req))) ;;;
           Ret (res_status_json 404 (error_body "License not found"))
       | Some license =>
           let deviceHash := hashDeviceId deviceId in
           if negb (strict_eq (device_id_hash license) deviceHash) then
             deviceIdHash <- unbound "deviceIdHash" ;;
             call (LogValidation
                     (mkLogData licenseKey deviceIdHash "periodic" false
                        (Some "Device ID mismatch") (ip req) (user_agent req))) ;;;
             Ret (res_status_json 403 (error_body "Device ID mismatch"))
           else if status_eqb (status license) revoked then
             deviceIdHash <- unbound "deviceIdHash" ;;
             call (LogValidation
                     (mkLogData licenseKey deviceIdHash "periodic" false
                        (Some "License has been revoked")
                        (ip req) (user_agent req))) ;;;
             Ret (res_status_json 403
                    [("error", JStr "License has been revoked");
                     ("reason", json_of_string (revoke_reason license))])
           else if expires_at license <? now then
             deviceIdHash <- unbound "deviceIdHash" ;;
             call (LogValidation
                     (mkLogData licenseKey deviceIdHash "periodic" false
                        (Some "License has expired") (ip req) (user_agent req))) ;;;
             Ret (res_status_json 403 (error_body "License has expired"))
           else
             call (UpdateValidation licenseKey) ;;;
             deviceIdHash <- unbound "deviceIdHash" ;;
             call (LogValidation
                     (mkLogData licenseKey deviceIdHash "periodic" true None
                        (ip req) (user_agent req))) ;;;
             Ret (res_json
                    [("valid", JBool true);
                     ("validatedAt", JDate now);
                     ("expiresAt", JDate (expires_at license))])
       end)
    (fun _ => Ret (res_status_json 500 (error_body "Validation failed"))).

(** The body of an operator's [POST /generate], after [authenticateToken]
    has set [req.user]. *)
Record generate_request := mkGenerateRequest {
  body_kioskName : option string;
  body_location : option location;
  body_country : option string;
  body_validityDays : option Z;
  gen_user_id : option Z;
  gen_ip : option string
}.

(** [a || b] on numbers: 0 and NaN are falsy. *)
Definition or_number (a : option Z) (b : Z) : Z :=
  match a with
  | Some 0 | None => b
  | Some v => v
  end.

Definition json_of_location (l : location) : json :=
  JObj
    (match restaurant l with Some s => [("restaurant", JStr s)] | None => [] end ++
     match country l with Some s => [("country", JStr s)] | None => [] end ++
     match region l with Some s => [("region", JStr s)] | None => [] end).

Definition empty_location : location := mkLocation None None None.

(** [country = 'UK'] in the destructuring of [req.body]. *)
Definition country_of (ctry : option string) : string :=
  match ctry with Some c => c | None => "UK" end.

(** [router.post('/generate', ...)].  Neither [db.createLicense] nor
    [db.logActivity] is awaited: when the insert is refused, the handler does
    not learn of it. *)
Definition post_generate (year : N) (randomBytes : nat -> list Byte.byte)
    (now : Z) (req : generate_request) : prog response :=
  try_catch
    (if falsy (body_kioskName req) then
       Ret (res_status_json 400 (error_body "Kiosk name is required"))
     else
       let kioskName := str (body_kioskName req) in
       let country := country_of (body_country req) in
       let licenseKey := generateLicenseKey year randomBytes "KFC-KIO" country in
       let issuedAt := now in
       let validity :=
         or_number (body_validityDays req) (or_number LICENSE_VALIDITY_DAYS 365) in
       expiresAt <- toISOString (now + validity * 24 * 60 * 60 * 1000) ;;
       let location :=
         match body_location req with Some l => l | None => empty_location end in
       let licenseData :=
         mkLicenseData licenseKey kioskName location issuedAt expiresAt in
       fire (CreateLicense licenseData) ;;;
       fire (LogActivity
               (mkActivityData (gen_user_id req) "generate_license"
                  (Some "license") (Some licenseKey)
                  (Some (JSON_stringify
                           (JObj (("kioskName", JStr kioskName) ::
                                  match body_location req with
                                  | Some l => [("location", json_of_location l)]
                                  | None => []
                                  end))))
                  (gen_ip req))) ;;;
       Ret (res_json
              [("success", JBool true);
               ("license",
                JObj [("licenseKey", JStr licenseKey);
                      ("kioskName", JStr kioskName);
                      ("location", json_of_location location);
                      ("status", JStr "pending");
                      ("issuedAt", JDate issuedAt);
                      ("expiresAt", JDate expiresAt)])]))
    (fun _ => Ret (res_status_json 500 (error_body "Failed to generate license"))).

Record revoke_request := mkRevokeRequest {
  params_licenseKey : string;
  body_reason : option string;
  rev_user_id : option Z;
  rev_ip : option string
}.

(** [router.post('/:licenseKey/revoke', ...)].  [license] is the promise of
    the lookup, so the test [!license] never holds. *)
Definition post_revoke (req : revoke_request) : prog response :=
  try_catch
    (if falsy (body_reason req) then
       Ret (res_status_json 400 (error_body "Revocation reason required"))
     else
       let reason := str (body_reason req) in
       license <- fire (GetLicenseByKey (params_licenseKey req)) ;;
       if not_promise license then
         Ret (res_status_json 404 (error_body "License not found"))
       else
         fire (RevokeLicense (params_licenseKey req) reason) ;;;
         fire (LogActivity
                 (mkActivityData (rev_user_id req) "revoke_license"
                    (Some "license") (Some (params_licenseKey req))
                    (Some ("Reason: " ++ reason)) (rev_ip req))) ;;;
         Ret (res_json
                [("success", JBool true);
                 ("message", JStr "License revoked successfully")]))
    (fun _ => Ret (res_status_json 500 (error_body "Failed to revoke license"))).

(** *** Serving requests *)

(** A request served alone.  An exception that leaves a handler reaches the
    error middleware of [server.js]. *)
Definition serve (p : prog response) (now : Z) (db : database)
    : response * database :=
  match run p now db with
  | (inr r, db') => (r, db')
  | (inl _, db') =>
      (res_status_json 500 (error_body "Internal server error"), db')
  end.

Definition activate (now : Z) (req : device_request) (db : database) :=
  serve (post_activate now req) now db.
Definition validate (now : Z) (req : device_request) (db : database) :=
  serve (post_validate now req) now db.
Definition generate (year : N) (randomBytes : nat -> list Byte.byte)
    (now : Z) (req : generate_request) (db : database) :=
  serve (post_generate year randomBytes now req) now db.
Definition revoke (now : Z) (req : revoke_request) (db : database) :=
  serve (post_revoke req) now db.

(** Two requests in flight.  The schedule says whose pending database call
    the store executes next ([true]: the first request). *)
Fixpoint interleave (schedule : list bool) (now1 now2 : Z)
    (p1 p2 : prog response) (db : database)
    : prog response * prog response * database :=
  match schedule with
  | [] => (p1, p2, db)
  | true :: rest =>
      let '(p1', db') := step p1 now1 db in
      interleave rest now1 now2 p1' p2 db'
  | false :: rest =>
      let '(p2', db') := step p2 now2 db in
      interleave rest now1 now2 p1 p2' db'
  end.

(** The answer of a handler that has no database call left. *)
Definition answered (p : prog response) : option response :=
  match p with
  | Ret r => Some r
  | _ => None
  end.

(** *** The outcomes the protocol names *)

Definition Expired : response :=
  res_status_json 403 (error_body "License has expired").
(** Activate's "already active on another device". *)
Definition DeviceMismatch : response :=
  res_status_json 403 (error_body "License already activated on another device").
(** Validate's device mismatch. *)
Definition DeviceIdMismatch : response :=
  res_status_json 403 (error_body "Device ID mismatch").
Definition Revoked (reason : option string) : response :=
  res_status_json 403
    [("error", JStr "License has been revoked");
     ("reason", json_of_string reason)].
Definition ValidationFailed : response :=
  res_status_json 500 (error_body "Validation failed").
Definition GenerationFailed : response :=
  res_status_json 500 (error_body "Failed to generate license").
Definition RevokeOk : response :=
  res_json [("success", JBool true);
            ("message", JStr "License revoked successfully")].

Definition succeeded (r : response) : bool := status_code r =? 200.

Fixpoint field (k : string) (o : list (string * json)) : option json :=
  match o with
  | [] => None
  | (k', v) :: rest => if String.eqb k' k then Some v else field k rest
  end.

(** The field names of the signed assertion a response carries. *)
Definition assertion_keys (r : response) : list string :=
  match body r with
  | JObj o =>
      match field "license" o with
      | Some (JObj l) => keys l
      | _ => []
      end
  | _ => []
  end.

Definition kiosk_request (k d : string) (ip0 ua : option string)
    : device_request :=
  mkDeviceRequest (Some k) (Some d) ip0 ua.

(** The rows that [logValidation] has to add for one attempt. *)
Definition logged (before after : database) : nat :=
  (List.length (validation_logs after) - List.length (validation_logs before))%nat.

End LicenseServer.

(** ** Sample data for the worked examples *)

Definition toy_sha (s : string) : string := "sha256:" ++ s.
Definition toy_sign (key m : string) : string := "signed:" ++ m.
Definition toy_stringify (j : json) : string :=
  match j with
  | JObj o => String.concat "," (map fst o)
  | _ => ""
  end.
Definition toy_verify (key m signature : string) : exn + bool :=
  inr (String.eqb signature (toy_sign key m)).

Definition toy_platform : Platform := {|
  sha256_hex := toy_sha;
  rsa_sha256_sign := toy_sign;
  rsa_sha256_verify := toy_verify;
  JSON_stringify := toy_stringify;
  privateKey := "private.pem";
  LICENSE_VALIDITY_DAYS := None
|}.

(** A pending license that expires at instant 1000. *)
Definition L1 : license :=
  mkLicense "L1" None "kiosk-1" None (Some "UK") None
    pending 0 1000 None None None None 0.

(** [L1] activated by "dev-A" at instant 10. *)
Definition L1_active : license :=
  mkLicense "L1" (Some (toy_sha "dev-A")) "kiosk-1" None (Some "UK") None
    active 0 1000 (Some 10) (Some 10) None None 10.

Definition db_pending : database := mkDatabase [L1] [] [].
Definition db_active : database := mkDatabase [L1_active] [] [].

Definition zero_bytes (i : nat) : list Byte.byte := [Byte.x00; Byte.x00].

(** The license whose key the generator produces from [zero_bytes] in 2025. *)
Definition L0 : license :=
  mkLicense "KFC-KIO-UK-2025-0000-0000-0000-0000" None "kiosk-0" None None None
    pending 0 1000 None None None None 0.
Definition db_collision : database := mkDatabase [L0] [] [].

Definition sample_activate := @activate toy_platform.
Definition sample_post_activate := @post_activate toy_platform.
Definition sample_validate := @validate toy_platform.
Definition sample_generate := @generate toy_platform.
Definition dev_A := kiosk_request "L1" "dev-A" None None.
Definition dev_B := kiosk_request "L1" "dev-B" None None.
Definition revoke_r1 := mkRevokeRequest "L1" (Some "r1") None None.
Definition revoke_r2 := mkRevokeRequest "L1" (Some "r2") None None.
Definition generate_kiosk_0 :=
  mkGenerateRequest (Some "kiosk-0") None None None None None.

(** ** The rest of LicenseDatabase and of the routes *)

Definition has_key (k : string) (l : license) : bool :=
  String.eqb (license_key l) k.

(** [DELETE FROM licenses WHERE license_key = $1]; the result is
    [result.rowCount]. *)
Definition deleteLicense (k : string) (db : database) : nat * database :=
  (List.length (filter (has_key k) (licenses db)),
   with_licenses db (filter (fun l => negb (has_key k l)) (licenses db))).

(** [device_id_hash = $1 AND status = $2] with [$2 = 'active'] *)
Definition bound_to (h : string) (l : license) : bool :=
  strict_eq (device_id_hash l) h && status_eqb (status l) active.

(** [SELECT * FROM licenses WHERE device_id_hash = $1 AND status = $2], then
    [rows[0]]; the rows come in table order. *)
Definition getLicenseByDeviceId (h : string) (db : database) : option license :=
  hd_error (filter (bound_to h) (licenses db)).

(** The symmetric primitives of [encryptLicense]. *)
Class OfflineCipher := {
  (** [crypto.pbkdf2Sync(password, salt, iterations, keylen, 'sha256')] *)
  pbkdf2_sha256 : string -> string -> Z -> Z -> list Byte.byte;
  (** [createCipheriv('aes-256-gcm', key, iv)], [update(m, 'utf8', 'hex')]
      followed by [final('hex')], and [getAuthTag()] *)
  aes_256_gcm : list Byte.byte -> list Byte.byte -> string -> string * list Byte.byte
}.

(** The characters of an upper-case hexadecimal segment. *)
Definition is_upper_hex (c : ascii) : bool :=
  let n := N_of_ascii c in
  (((48 <=? n) && (n <=? 57)) || ((65 <=? n) && (n <=? 70)))%N.

Definition is_segment (s : string) : bool :=
  Nat.eqb (String.length s) 4 && forallb is_upper_hex (list_ascii_of_string s).

(** The order of the lifecycle: [pending], then [active], then [revoked]. *)
Definition rank (s : license_status) : nat :=
  match s with
  | pending => 0
  | active => 1
  | revoked => 2
  end.

(** A license that has left [pending] with its fingerprint decided: activated
    with a stored fingerprint, or revoked. *)
Definition settled (l : license) : bool :=
  already_activated l || status_eqb (status l) revoked.

(** [l'] is a later state of the license [l]: what was fixed at issue is the
    same, the status has not moved back, and the fingerprint of a settled
    license is the same. *)
Definition evolves (l l' : license) : Prop :=
  license_key l' = license_key l /\
  kiosk_name l' = kiosk_name l /\
  location_restaurant l' = location_restaurant l /\
  location_country l' = location_country l /\
  location_region l' = location_region l /\
  issued_at l' = issued_at l /\
  expires_at l' = expires_at l /\
  (rank (status l) <= rank (status l'))%nat /\
  (settled l = true -> device_id_hash l' = device_id_hash l).

(** What one request may do to the table of licenses: nothing, rewrite the
    rows of one key into a later state, append a row under a key that is not
    taken or, when [deletes] holds, remove the rows of one key. *)
Inductive table_change (deletes : bool) (rows : list license)
    : list license -> Prop :=
| change_none : table_change deletes rows rows
| change_update (k : string) (set : license -> license) (l0 : license) :
    select_by_key k rows = Some l0 ->
    (forall l, license_key (set l) = license_key l) ->
    evolves l0 (set l0) ->
    table_change deletes rows (update_by_key k set rows)
| change_insert (l : license) :
    select_by_key (license_key l) rows = None ->
    table_change deletes rows (rows ++ [l])
| change_delete (k : string) :
    deletes = true ->
    table_change deletes rows (filter (fun l => negb (has_key k l)) rows).

Section Administration.

Context {platform : Platform} {cipher : OfflineCipher}.

(** The expiry date that [POST /generate] computes. *)
Definition expiry_of (now : Z) (days : option Z) : Z :=
  now + or_number days (or_number LICENSE_VALIDITY_DAYS 365) * 24 * 60 * 60 * 1000.

(** The [licenseData] that [POST /generate] hands to [db.createLicense]. *)
Definition generated_license (year : N) (randomBytes : nat -> list Byte.byte)
    (now : Z) (req : generate_request) : licenseData :=
  mkLicenseData
    (generateLicenseKey year randomBytes "KFC-KIO" (country_of (body_country req)))
    (str (body_kioskName req))
    (match body_location req with Some l => l | None => empty_location end)
    now (expiry_of now (body_validityDays req)).

(** [encryptLicense(licenseData, deviceId)]; [iv] is what
    [crypto.randomBytes(16)] returns. *)
Definition encryptLicense (iv : list Byte.byte) (licenseData : json)
    (deviceId : string) : list (string * json) :=
  let key := pbkdf2_sha256 deviceId "license-salt" 100000 32 in
  let '(encrypted, authTag) := aes_256_gcm key iv (JSON_stringify licenseData) in
  [("encrypted", JStr encrypted);
   ("iv", JStr (toString_hex iv));
   ("authTag", JStr (toString_hex authTag))].

(** The body of an operator's [POST /generate-offline]. *)
Record offline_request := mkOfflineRequest {
  off_licenseKey : option string;
  off_deviceId : option string;
  off_user_id : option Z;
  off_ip : option string
}.

(** The object [licenseData] of [POST /generate-offline], as it is signed,
    encrypted and sent.  [license] is the promise of the lookup, so
    [license.license_key], [license.kiosk_name], the three location columns,
    [license.issued_at] and [license.expires_at] are [undefined], and
    [JSON.stringify] and [res.json] leave an undefined property out. *)
Definition offline_license (license : promise) (deviceHash : string) (now : Z)
    : list (string * json) :=
  [("deviceId", JStr deviceHash);
   ("location", JObj []);
   ("activatedAt", JDate now);
   ("lastValidated", JDate now);
   ("graceExpiresAt", JDate (now + ninety_days))].

(** [router.post('/generate-offline', ...)].  The lookup is not awaited, so
    the test [!license] never holds. *)
Definition post_generate_offline (iv : list Byte.byte) (now : Z)
    (req : offline_request) : prog response :=
  try_catch
    (if falsy (off_licenseKey req) || falsy (off_deviceId req) then
       Ret (res_status_json 400 (error_body "License key and device ID required"))
     else
       let licenseKey := str (off_licenseKey req) in
       let deviceId := str (off_deviceId req) in
       license <- fire (GetLicenseByKey licenseKey) ;;
       if not_promise license then
         Ret (res_status_json 404 (error_body "License not found"))
       else
         let licenseData := offline_license license (hashDeviceId deviceId) now in
         let signature := signLicense (JObj licenseData) privateKey in
         let signed := (licenseData ++ [("signature", JStr signature)])%list in
         let encrypted := encryptLicense iv (JObj signed) deviceId in
         fire (LogActivity
                 (mkActivityData (off_user_id req) "generate_offline_license"
                    (Some "license") (Some licenseKey)
                    (Some ("Device ID: " ++ substring 0 8 deviceId ++ "..."))
                    (off_ip req))) ;;;
         Ret (res_json
                [("success", JBool true);
                 ("licenseFile", JObj encrypted);
                 ("licenseData", JObj signed)]))
    (fun _ =>
       Ret (res_status_json 500 (error_body "Failed to generate offline license"))).

Definition generate_offline (iv : list Byte.byte) (now : Z)
    (req : offline_request) (db : database) :=
  serve (post_generate_offline iv now req) now db.

Record delete_request := mkDeleteRequest {
  del_licenseKey : string;
  del_user_id : option Z;
  del_ip : option string
}.

(** [router.delete('/:licenseKey', ...)], served alone.  None of the three
    calls is awaited: [license] is the promise of the lookup, so the test
    [!license] never holds, and the [DELETE] and the activity row follow for
    any key. *)
Definition delete_license (req : delete_request) (db : database)
    : response * database :=
  let license := Promise in
  if not_promise license then
    (res_status_json 404 (error_body "License not found"), db)
  else
    let db1 := snd (deleteLicense (del_licenseKey req) db) in
    let db2 :=
      logActivity
        (mkActivityData (del_user_id req) "delete_license" (Some "license")
           (Some (del_licenseKey req)) None (del_ip req)) db1 in
    (res_json [("success", JBool true);
               ("message", JStr "License deleted successfully")], db2).

(** *** Requests, one after the other *)

Inductive request : Type :=
| Activate (now : Z) (req : device_request)
| Validate (now : Z) (req : device_request)
| Generate (year : N) (randomBytes : nat -> list Byte.byte) (now : Z)
    (req : generate_request)
| GenerateOffline (iv : list Byte.byte) (now : Z) (req : offline_request)
| Revoke (now : Z) (req : revoke_request)
| Delete (req : delete_request).

Definition handle (r : request) (db : database) : response * database :=
  match r with
  | Activate now req => activate now req db
  | Validate now req => validate now req db
  | Generate year randomBytes now req => generate year randomBytes now req db
  | GenerateOffline iv now req => generate_offline iv now req db
  | Revoke now req => revoke now req db
  | Delete req => delete_license req db
  end.

(** The database after a sequence of requests. *)
Fixpoint handle_all (rs : list request) (db : database) : database :=
  match rs with
  | [] => db
  | r :: rest => handle_all rest (snd (handle r db))
  end.

Definition is_delete (r : request) : bool :=
  match r with
  | Delete _ => true
  | _ => false
  end.

End Administration.

Definition toy_cipher : OfflineCipher := {|
  pbkdf2_sha256 := fun password salt iterations keylen => [Byte.x2a];
  aes_256_gcm := fun key iv m => ("00", [Byte.xff])
|}.

Definition sample_handle_all := @handle_all toy_platform toy_cipher.

(** A second license and a database that holds both. *)
Definition L2 : license :=
  mkLicense "L2" None "kiosk-2" None None None
    pending 0 5000 None None None None 0.
Definition db_two : database := mkDatabase [L1_active; L2] [] [].

Definition data_L2 : licenseData :=
  mkLicenseData "L2" "kiosk-2" (mkLocation None None None) 5 5000.

(** Draws that agree with [zero_bytes] on the four that the generator makes. *)
Definition zero_then_ff (i : nat) : list Byte.byte :=
  if Nat.ltb i 4 then [Byte.x00; Byte.x00] else [Byte.xff; Byte.xff].

Definition no_device : device_request :=
  mkDeviceRequest (Some "L1") None None None.
Definition negative_days : generate_request :=
  mkGenerateRequest (Some "kiosk-0") None None (Some (-1)) None None.

(** A kiosk activates [L1] and validates it, the operator revokes it, and a
    second kiosk tries to activate it. *)
Definition sample_requests : list request :=
  [Activate 10 dev_A; Validate 20 dev_A; Revoke 30 revoke_r1; Activate 40 dev_B].

(** ** Properties *)

Section Properties.

Context {platform : Platform}.

(** *** The store *)

Lemma select_update_same (k : string) (set : license -> license)
    (rows : list license) :
  (forall l, license_key (set l) = license_key l) ->
  select_by_key k (update_by_key k set rows) =
  option_map set (select_by_key k rows).
Proof.
  intros Hkey. induction rows as [|l rest IH]; [reflexivity|].
  cbn [update_by_key map select_by_key].
  destruct (String.eqb (license_key l) k) eqn:E.
  - rewrite Hkey, E. reflexivity.
  - rewrite E. exact IH.
Qed.

Lemma getLicenseByKey_activateLicense k h now db :
  getLicenseByKey k (activateLicense k h now db) =
  option_map (set_activated h now) (getLicenseByKey k db).
Proof. apply select_update_same. reflexivity. Qed.

Lemma getLicenseByKey_revokeLicense k reason now db :
  getLicenseByKey k (revokeLicense k reason now db) =
  option_map (set_revoked reason now) (getLicenseByKey k db).
Proof. apply select_update_same. reflexivity. Qed.

Lemma getLicenseByKey_updateValidation k now db :
  getLicenseByKey k (updateValidation k now db) =
  option_map (set_validated now) (getLicenseByKey k db).
Proof. apply select_update_same. reflexivity. Qed.

Lemma getLicenseByKey_logValidation k d db :
  getLicenseByKey k (logValidation d db) = getLicenseByKey k db.
Proof. reflexivity. Qed.

Lemma getLicenseByKey_logActivity k d db :
  getLicenseByKey k (logActivity d db) = getLicenseByKey k db.
Proof. reflexivity. Qed.

(** *** The handlers, request by request *)

Ltac handler_cbn :=
  cbn [run try_catch bind call exec step unbound fst snd interleave
       body_licenseKey body_deviceId ip user_agent str falsy orb negb
       kiosk_request params_licenseKey body_reason].

Ltac handler_rewrite :=
  match goal with
  | H : String.eqb ?a ?b = _ |- context [String.eqb ?a ?b] => rewrite H
  | H : getLicenseByKey ?k ?db = _ |- context [getLicenseByKey ?k ?db] =>
      rewrite H
  | H : already_activated ?l = _ |- context [already_activated ?l] => rewrite H
  | H : strict_eq ?a ?b = _ |- context [strict_eq ?a ?b] => rewrite H
  | H : status_eqb ?a ?b = _ |- context [status_eqb ?a ?b] => rewrite H
  | H : Z.ltb ?a ?b = _ |- context [Z.ltb ?a ?b] => rewrite H
  end.

Ltac handler := repeat (handler_cbn; handler_rewrite); handler_cbn.

(** What [POST /validate] does once the license is found. *)
Lemma validate_found now k d ip0 ua db l :
  String.eqb k "" = false -> String.eqb d "" = false ->
  getLicenseByKey k db = Some l ->
  validate now (kiosk_request k d ip0 ua) db =
  (ValidationFailed,
   if negb (strict_eq (device_id_hash l) (hashDeviceId d)) then db
   else if status_eqb (status l) revoked then db
   else if expires_at l <? now then db
   else updateValidation k now db).
Proof.
  intros Hk Hd Hget. unfold validate, serve, post_validate. handler.
  destruct (strict_eq (device_id_hash l) (hashDeviceId d)) eqn:Hfp; handler;
    [|reflexivity].
  destruct (status_eqb (status l) revoked) eqn:Hrev; handler; [reflexivity|].
  destruct (expires_at l <? now) eqn:Hexp; handler; reflexivity.
Qed.

(** What [POST /activate] does once the license is found. *)
Lemma activate_found now k d ip0 ua db l :
  String.eqb k "" = false -> String.eqb d "" = false ->
  getLicenseByKey k db = Some l ->
  activate now (kiosk_request k d ip0 ua) db =
  let log ok message := mkLogData k (hashDeviceId d) "activation" ok message ip0 ua in
  if already_activated l then
    if strict_eq (device_id_hash l) (hashDeviceId d) then
      (license_json (existing_license l (hashDeviceId d))
         (signLicense (JObj (existing_license l (hashDeviceId d))) privateKey),
       db)
    else
      (DeviceMismatch,
       logValidation
         (log false (Some "License already activated on another device")) db)
  else if status_eqb (status l) revoked then
    (Revoked (revoke_reason l),
     logValidation (log false (Some "License has been revoked")) db)
  else if expires_at l <? now then
    (Expired, logValidation (log false (Some "License has expired")) db)
  else
    (license_json (activated_license l (hashDeviceId d) now)
       (signLicense (JObj (activated_license l (hashDeviceId d) now)) privateKey),
     logValidation (log true None) (activateLicense k (hashDeviceId d) now db)).
Proof.
  intros Hk Hd Hget. unfold activate, serve, post_activate. handler.
  destruct (already_activated l) eqn:Hact; handler.
  - destruct (strict_eq (device_id_hash l) (hashDeviceId d)) eqn:Hfp; handler;
      reflexivity.
  - destruct (status_eqb (status l) revoked) eqn:Hrev; handler; [reflexivity|].
    destruct (expires_at l <? now) eqn:Hexp; handler; reflexivity.
Qed.

Lemma validate_found_unsuccessful now k d ip0 ua db l :
  String.eqb k "" = false -> String.eqb d "" = false ->
  getLicenseByKey k db = Some l ->
  succeeded (fst (validate now (kiosk_request k d ip0 ua) db)) = false /\
  validation_logs (snd (validate now (kiosk_request k d ip0 ua) db)) =
  validation_logs db.
Proof.
  intros Hk Hd Hget. rewrite (validate_found _ _ _ _ _ _ _ Hk Hd Hget).
  split; [reflexivity|]. cbn [snd].
  destruct (negb _); [reflexivity|].
  destruct (status_eqb _ _); [reflexivity|].
  destruct (_ <? _); reflexivity.
Qed.

(** *** Activate *)

(** C2, as the handler decides it.  For an existing license whose [expires_at]
    is earlier than the current time, [POST /activate] answers [Expired] only
    when the license is neither already activated nor revoked: an already
    activated license is decided first (its bound device gets the idempotent
    success, any other device [DeviceMismatch]), then a revoked one
    ([Revoked] with the stored reason), and the expiry check comes last. *)
Theorem activate_expired_outcome now k d ip0 ua db l :
  String.eqb k "" = false -> String.eqb d "" = false ->
  getLicenseByKey k db = Some l ->
  expires_at l < now ->
  fst (activate now (kiosk_request k d ip0 ua) db) =
  if already_activated l then
    if strict_eq (device_id_hash l) (hashDeviceId d) then
      license_json (existing_license l (hashDeviceId d))
        (signLicense (JObj (existing_license l (hashDeviceId d))) privateKey)
    else DeviceMismatch
  else if status_eqb (status l) revoked then Revoked (revoke_reason l)
  else Expired.
Proof.
  intros Hk Hd Hget Hexp. rewrite (activate_found _ _ _ _ _ _ _ Hk Hd Hget).
  cbv zeta. apply Z.ltb_lt in Hexp. rewrite Hexp.
  destruct (already_activated l).
  - destruct (strict_eq _ _); reflexivity.
  - destruct (status_eqb _ _); reflexivity.
Qed.

(** C5, on the re-activation path.  When the bound device activates an already
    active license again, [POST /activate] answers 200 and leaves the database
    as it was: no row is added to [validation_logs]. *)
Theorem reactivation_writes_no_log now k d ip0 ua db l :
  String.eqb k "" = false -> String.eqb d "" = false ->
  getLicenseByKey k db = Some l ->
  already_activated l = true ->
  strict_eq (device_id_hash l) (hashDeviceId d) = true ->
  succeeded (fst (activate now (kiosk_request k d ip0 ua) db)) = true /\
  snd (activate now (kiosk_request k d ip0 ua) db) = db /\
  logged db (snd (activate now (kiosk_request k d ip0 ua) db)) = 0%nat.
Proof.
  intros Hk Hd Hget Hact Hfp. rewrite (activate_found _ _ _ _ _ _ _ Hk Hd Hget).
  cbv zeta. rewrite Hact, Hfp. cbn [fst snd]. unfold logged.
  rewrite Nat.sub_diag. repeat split.
Qed.

(** *** Validate *)

(** C3, on the code.  For an existing, non-revoked, non-expired license whose
    stored fingerprint equals the hash of the device id, [POST /validate]
    stamps [last_validated_at] (and [updated_at]) with the current time and
    leaves status and fingerprint alone, but then answers 500
    "Validation failed" instead of the validity window, and logs nothing. *)
Theorem validate_bound_device_fails now k d ip0 ua db l :
  String.eqb k "" = false -> String.eqb d "" = false ->
  getLicenseByKey k db = Some l ->
  strict_eq (device_id_hash l) (hashDeviceId d) = true ->
  status_eqb (status l) revoked = false ->
  (expires_at l <? now) = false ->
  validate now (kiosk_request k d ip0 ua) db =
    (ValidationFailed, updateValidation k now db) /\
  getLicenseByKey k (updateValidation k now db) = Some (set_validated now l) /\
  last_validated_at (set_validated now l) = Some now /\
  status (set_validated now l) = status l /\
  device_id_hash (set_validated now l) = device_id_hash l.
Proof.
  intros Hk Hd Hget Hfp Hrev Hexp.
  rewrite (validate_found _ _ _ _ _ _ _ Hk Hd Hget), Hfp, Hrev, Hexp.
  rewrite getLicenseByKey_updateValidation, Hget. repeat split.
Qed.

(** C4, as far as the handler goes.  For an existing license whose
    [expires_at] is in the past, [POST /validate] never succeeds and changes
    nothing in the database, whichever device asks. *)
Theorem validate_expired_never_succeeds now k d ip0 ua db l :
  String.eqb k "" = false -> String.eqb d "" = false ->
  getLicenseByKey k db = Some l ->
  expires_at l < now ->
  succeeded (fst (validate now (kiosk_request k d ip0 ua) db)) = false /\
  snd (validate now (kiosk_request k d ip0 ua) db) = db.
Proof.
  intros Hk Hd Hget Hexp. rewrite (validate_found _ _ _ _ _ _ _ Hk Hd Hget).
  apply Z.ltb_lt in Hexp. rewrite Hexp. split; [reflexivity|]. cbn [snd].
  destruct (negb _); [reflexivity|]. destruct (status_eqb _ _); reflexivity.
Qed.

(** C8, on the code.  For an existing license whose stored fingerprint differs
    from the hash of the device id (a null fingerprint included),
    [POST /validate] answers 500 "Validation failed", not the 403
    "Device ID mismatch" that the branch was written to send, and leaves the
    database unchanged. *)
Theorem validate_mismatch_is_server_error now k d ip0 ua db l :
  String.eqb k "" = false -> String.eqb d "" = false ->
  getLicenseByKey k db = Some l ->
  strict_eq (device_id_hash l) (hashDeviceId d) = false ->
  validate now (kiosk_request k d ip0 ua) db = (ValidationFailed, db) /\
  ValidationFailed <> DeviceIdMismatch.
Proof.
  intros Hk Hd Hget Hfp.
  rewrite (validate_found _ _ _ _ _ _ _ Hk Hd Hget), Hfp.
  split; [reflexivity|discriminate].
Qed.

(** *** Revoke *)

Lemma revoke_found now k r uid ipr db l :
  String.eqb r "" = false ->
  getLicenseByKey k db = Some l ->
  revoke now (mkRevokeRequest k (Some r) uid ipr) db =
  (RevokeOk,
   logActivity
     (mkActivityData uid "revoke_license" (Some "license") (Some k)
        (Some ("Reason: " ++ r)) ipr)
     (revokeLicense k r now db)).
Proof.
  intros Hr Hget. unfold revoke, serve, post_revoke. handler. reflexivity.
Qed.

Lemma already_activated_revoked l :
  status l = revoked -> already_activated l = false.
Proof. intros H. unfold already_activated. rewrite H. reflexivity. Qed.

(** C6, as the code has it.  After [revoke(key, r1)] succeeds the license is
    [revoked] with reason [r1]; from then on every Activate for the key answers
    [Revoked] with the stored reason and leaves the license rows alone, and no
    Validate succeeds or changes anything.  A second [revoke(key, r2)] is
    accepted like the first: it overwrites [revoke_reason] with [r2] and
    [revoked_at] with its own time. *)
Theorem revoke_then_device_calls now0 k r1 uid ipr db l :
  String.eqb k "" = false ->
  String.eqb r1 "" = false ->
  getLicenseByKey k db = Some l ->
  let db1 := snd (revoke now0 (mkRevokeRequest k (Some r1) uid ipr) db) in
  fst (revoke now0 (mkRevokeRequest k (Some r1) uid ipr) db) = RevokeOk /\
  getLicenseByKey k db1 = Some (set_revoked r1 now0 l) /\
  (forall now d ip0 ua,
      String.eqb d "" = false ->
      fst (activate now (kiosk_request k d ip0 ua) db1) = Revoked (Some r1) /\
      licenses (snd (activate now (kiosk_request k d ip0 ua) db1)) =
      licenses db1) /\
  (forall now d ip0 ua,
      String.eqb d "" = false ->
      succeeded (fst (validate now (kiosk_request k d ip0 ua) db1)) = false /\
      snd (validate now (kiosk_request k d ip0 ua) db1) = db1) /\
  (forall now2 r2 uid2 ipr2,
      String.eqb r2 "" = false ->
      fst (revoke now2 (mkRevokeRequest k (Some r2) uid2 ipr2) db1) = RevokeOk /\
      option_map revoke_reason
        (getLicenseByKey k
           (snd (revoke now2 (mkRevokeRequest k (Some r2) uid2 ipr2) db1))) =
      Some (Some r2)).
Proof.
  intros Hk Hr Hget db1. subst db1.
  rewrite (revoke_found _ _ _ _ _ _ _ Hr Hget). cbn [fst snd].
  assert (Hget1 :
    getLicenseByKey k
      (logActivity
         (mkActivityData uid "revoke_license" (Some "license") (Some k)
            (Some ("Reason: " ++ r1)) ipr)
         (revokeLicense k r1 now0 db)) = Some (set_revoked r1 now0 l)).
  { rewrite getLicenseByKey_logActivity, getLicenseByKey_revokeLicense, Hget.
    reflexivity. }
  split; [reflexivity|]. split; [exact Hget1|]. split; [|split].
  - intros now d ip0 ua Hd.
    rewrite (activate_found _ _ _ _ _ _ _ Hk Hd Hget1). cbv zeta.
    rewrite already_activated_revoked by reflexivity.
    cbn [set_revoked status status_eqb revoke_reason fst snd].
    split; reflexivity.
  - intros now d ip0 ua Hd.
    rewrite (validate_found _ _ _ _ _ _ _ Hk Hd Hget1).
    cbn [set_revoked status status_eqb fst snd]. split; [reflexivity|].
    destruct (negb _); reflexivity.
  - intros now2 r2 uid2 ipr2 Hr2.
    rewrite (revoke_found _ _ _ _ _ _ _ Hr2 Hget1). cbn [fst snd].
    rewrite getLicenseByKey_logActivity, getLicenseByKey_revokeLicense, Hget1.
    split; reflexivity.
Qed.

(** *** Issue *)

Lemma select_by_key_app_new k rows l :
  select_by_key k rows = None -> license_key l = k ->
  select_by_key k (rows ++ [l]) = Some l.
Proof.
  intros Hnone Hkey. induction rows as [|x rest IH]; cbn [app select_by_key] in *.
  - rewrite Hkey, String.eqb_refl. reflexivity.
  - destruct (String.eqb (license_key x) k); [discriminate|]. exact (IH Hnone).
Qed.

(** C7, as the code has it.  [POST /generate] draws one key and hands it to
    the store without looking it up first.  When the key is already taken the
    unique constraint refuses the insert: the licenses are what they were, so
    the existing license is neither overwritten nor joined by a license under
    another key, and no other key is drawn.  When the key is free and the
    expiry date is representable, the license is stored as [pending] under
    exactly that key. *)
Theorem generate_draws_one_key year rnd now kiosk loc ctry days uid ipg db :
  String.eqb kiosk "" = false ->
  let key := generateLicenseKey year rnd "KFC-KIO" (country_of ctry) in
  let req := mkGenerateRequest (Some kiosk) loc ctry days uid ipg in
  let expiry :=
    now + or_number days (or_number LICENSE_VALIDITY_DAYS 365) * 24 * 60 * 60 * 1000 in
  (forall l, getLicenseByKey key db = Some l ->
     licenses (snd (generate year rnd now req db)) = licenses db /\
     getLicenseByKey key (snd (generate year rnd now req db)) = Some l) /\
  (getLicenseByKey key db = None -> Z.abs expiry <= 8640000000000000 ->
     succeeded (fst (generate year rnd now req db)) = true /\
     exists l, getLicenseByKey key (snd (generate year rnd now req db)) = Some l /\
               license_key l = key /\ status l = pending /\
               device_id_hash l = None /\ expires_at l = expiry).
Proof.
  intros Hkiosk key req expiry. subst key req expiry.
  unfold generate, serve, post_generate, toISOString.
  cbn [body_kioskName body_country body_validityDays body_location falsy].
  rewrite Hkiosk. split.
  - intros l Hget. destruct (Z.abs _ <=? _);
      [|split; [reflexivity|exact Hget]].
    cbn [run try_catch bind fire exec]. unfold createLicense.
    cbn [ld_licenseKey]. pose proof Hget as Hsel. unfold getLicenseByKey in Hsel.
    rewrite Hsel. cbn [run try_catch bind fire exec fst snd].
    split; [reflexivity|exact Hget].
  - intros Hfree Hrange. apply Z.leb_le in Hrange. rewrite Hrange.
    cbn [run try_catch bind fire exec]. unfold createLicense.
    cbn [ld_licenseKey]. unfold getLicenseByKey in Hfree. rewrite Hfree.
    cbn [run try_catch bind fire exec fst snd]. split; [reflexivity|].
    eexists. split.
    + unfold getLicenseByKey. cbn [logActivity licenses].
      apply select_by_key_app_new; [exact Hfree|reflexivity].
    + repeat split.
Qed.

(** *** The signed assertion *)

Lemma already_activated_pending l :
  status l = pending -> already_activated l = false.
Proof. intros H. unfold already_activated. rewrite H. reflexivity. Qed.

(** C10, on the code.  A pending license is activated and then activated again
    by the same device: both calls answer 200, the first assertion carries
    [location] and the second does not. *)
Theorem reactivation_assertion_omits_location now1 now2 k d ip0 ua db l :
  String.eqb k "" = false -> String.eqb d "" = false ->
  String.eqb (hashDeviceId d) "" = false ->
  getLicenseByKey k db = Some l ->
  status l = pending ->
  (expires_at l <? now1) = false ->
  let first := activate now1 (kiosk_request k d ip0 ua) db in
  let second := activate now2 (kiosk_request k d ip0 ua) (snd first) in
  succeeded (fst first) = true /\ succeeded (fst second) = true /\
  existsb (String.eqb "location") (assertion_keys (fst first)) = true /\
  existsb (String.eqb "location") (assertion_keys (fst second)) = false.
Proof.
  intros Hk Hd Hh Hget Hst Hexp first second. subst first second.
  rewrite (activate_found _ _ _ _ _ _ _ Hk Hd Hget). cbv zeta.
  rewrite (already_activated_pending _ Hst), Hst, Hexp. cbn [status_eqb fst snd].
  assert (Hget1 :
    getLicenseByKey k
      (logValidation
         (mkLogData k (hashDeviceId d) "activation" true None ip0 ua)
         (activateLicense k (hashDeviceId d) now1 db)) =
    Some (set_activated (hashDeviceId d) now1 l)).
  { rewrite getLicenseByKey_logValidation, getLicenseByKey_activateLicense, Hget.
    reflexivity. }
  rewrite (activate_found _ _ _ _ _ _ _ Hk Hd Hget1). cbv zeta.
  unfold already_activated.
  cbn [set_activated status status_eqb device_id_hash falsy strict_eq andb negb].
  rewrite Hh, String.eqb_refl. cbn [negb fst]. repeat split.
Qed.

(** *** Two activations of one pending license *)

(** C1, as the code has it.  Activate reads the license and then issues an
    [UPDATE] that is keyed on [license_key] alone.  Two requests for the same
    pending, unexpired key with different fingerprints:
    - served one after the other, the first answers 200 and binds the license
      to its fingerprint, the second answers [DeviceMismatch] and the binding
      stays;
    - when both reads reach the store before either write, both answer 200 and
      the license ends up bound to the fingerprint written last. *)
Theorem activation_reads_then_writes now1 now2 k d1 d2 ip1 ua1 ip2 ua2 db l :
  String.eqb k "" = false ->
  String.eqb d1 "" = false -> String.eqb d2 "" = false ->
  String.eqb (hashDeviceId d1) "" = false ->
  String.eqb (hashDeviceId d1) (hashDeviceId d2) = false ->
  getLicenseByKey k db = Some l ->
  status l = pending ->
  (expires_at l <? now1) = false -> (expires_at l <? now2) = false ->
  let req1 := kiosk_request k d1 ip1 ua1 in
  let req2 := kiosk_request k d2 ip2 ua2 in
  (let first := activate now1 req1 db in
   let second := activate now2 req2 (snd first) in
   succeeded (fst first) = true /\ fst second = DeviceMismatch /\
   option_map status (getLicenseByKey k (snd second)) = Some active /\
   option_map device_id_hash (getLicenseByKey k (snd second)) =
   Some (Some (hashDeviceId d1))) /\
  (let '(p1, p2, db') :=
     interleave [true; false; true; false; true; false] now1 now2
       (post_activate now1 req1) (post_activate now2 req2) db in
   option_map succeeded (answered p1) = Some true /\
   option_map succeeded (answered p2) = Some true /\
   option_map status (getLicenseByKey k db') = Some active /\
   option_map device_id_hash (getLicenseByKey k db') =
   Some (Some (hashDeviceId d2))).
Proof.
  intros Hk Hd1 Hd2 Hh1 Hneq Hget Hst Hexp1 Hexp2 req1 req2. subst req1 req2.
  pose proof (already_activated_pending _ Hst) as Hact.
  assert (Hrev : status_eqb (status l) revoked = false) by (rewrite Hst; reflexivity).
  split.
  - cbv zeta. rewrite (activate_found _ _ _ _ _ _ _ Hk Hd1 Hget). cbv zeta.
    rewrite Hact, Hrev, Hexp1. cbn [fst snd].
    assert (Hget1 :
      getLicenseByKey k
        (logValidation
           (mkLogData k (hashDeviceId d1) "activation" true None ip1 ua1)
           (activateLicense k (hashDeviceId d1) now1 db)) =
      Some (set_activated (hashDeviceId d1) now1 l)).
    { rewrite getLicenseByKey_logValidation, getLicenseByKey_activateLicense, Hget.
      reflexivity. }
    rewrite (activate_found _ _ _ _ _ _ _ Hk Hd2 Hget1). cbv zeta.
    unfold already_activated.
    cbn [set_activated status status_eqb device_id_hash falsy strict_eq andb negb].
    rewrite Hh1, Hneq. cbn [negb fst snd].
    rewrite getLicenseByKey_logValidation, Hget1. repeat split.
  - unfold post_activate. handler. cbn [answered option_map].
    rewrite !getLicenseByKey_logValidation, !getLicenseByKey_activateLicense, Hget.
    repeat split.
Qed.

(** *** Verification *)

(** [verifyLicenseSignature] always returns a boolean; when the platform call
    throws, the boolean is [false]. *)
Lemma verifyLicenseSignature_returns licenseData signature publicKey :
  exists b, verifyLicenseSignature licenseData signature publicKey = inr b.
Proof.
  unfold verifyLicenseSignature.
  destruct (rsa_sha256_verify _ _ _); eexists; reflexivity.
Qed.

Lemma verifyLicenseSignature_catches licenseData signature publicKey e :
  rsa_sha256_verify publicKey (JSON_stringify licenseData) signature = inl e ->
  verifyLicenseSignature licenseData signature publicKey = inr false.
Proof. intros H. unfold verifyLicenseSignature. rewrite H. reflexivity. Qed.

End Properties.

(** ** Worked examples

    The platform is the sample one; ["L1"] is
    the sample license, pending in [db_pending] and bound to "dev-A" in
    [db_active], where it expires at instant 1000. *)

(** C1: both reads before both writes, and both devices are told that they
    hold the license. *)
Lemma concurrent_activations_both_succeed :
  getLicenseByKey "L1" db_pending = Some L1 /\
  status L1 = pending /\
  String.eqb (@hashDeviceId toy_platform "dev-A") (@hashDeviceId toy_platform "dev-B") = false /\
  let '(p1, p2, db') :=
    interleave [true; false; true; false; true; false] 10 11
      (sample_post_activate 10 dev_A) (sample_post_activate 11 dev_B) db_pending in
  option_map succeeded (answered p1) = Some true /\
  option_map succeeded (answered p2) = Some true /\
  answered p2 <> Some DeviceMismatch.
Proof.
  repeat split; try reflexivity. vm_compute. discriminate.
Qed.

Lemma activation_reads_then_writes_witness :
  (let first := sample_activate 10 dev_A db_pending in
   let second := sample_activate 11 dev_B (snd first) in
   succeeded (fst first) = true /\ fst second = DeviceMismatch /\
   option_map status (getLicenseByKey "L1" (snd second)) = Some active /\
   option_map device_id_hash (getLicenseByKey "L1" (snd second)) =
   Some (Some (@hashDeviceId toy_platform "dev-A"))) /\
  (let '(p1, p2, db') :=
     interleave [true; false; true; false; true; false] 10 11
       (sample_post_activate 10 dev_A) (sample_post_activate 11 dev_B)
       db_pending in
   option_map succeeded (answered p1) = Some true /\
   option_map succeeded (answered p2) = Some true /\
   option_map status (getLicenseByKey "L1" db') = Some active /\
   option_map device_id_hash (getLicenseByKey "L1" db') =
   Some (Some (@hashDeviceId toy_platform "dev-B"))).
Proof.
  exact (@activation_reads_then_writes toy_platform 10 11 "L1" "dev-A" "dev-B" None None None None
           db_pending L1
           eq_refl eq_refl eq_refl eq_refl eq_refl eq_refl eq_refl eq_refl
           eq_refl).
Defined.

(** C2: the expired license is still handed to its bound device. *)
Lemma activate_expired_bound_device_succeeds :
  getLicenseByKey "L1" db_active = Some L1_active /\
  expires_at L1_active < 2000 /\
  fst (sample_activate 2000 dev_A db_active) <> Expired /\
  succeeded (fst (sample_activate 2000 dev_A db_active)) = true.
Proof.
  repeat split; try reflexivity. vm_compute. discriminate.
Qed.

Lemma activate_expired_outcome_witness :
  fst (sample_activate 2000 dev_B db_active) = DeviceMismatch.
Proof.
  exact (@activate_expired_outcome toy_platform
           2000 "L1" "dev-B" None None db_active L1_active
           eq_refl eq_refl eq_refl eq_refl).
Defined.

Lemma validate_bound_device_fails_witness :
  sample_validate 20 dev_A db_active =
    (ValidationFailed, updateValidation "L1" 20 db_active) /\
  getLicenseByKey "L1" (updateValidation "L1" 20 db_active) =
    Some (set_validated 20 L1_active) /\
  last_validated_at (set_validated 20 L1_active) = Some 20 /\
  status (set_validated 20 L1_active) = status L1_active /\
  device_id_hash (set_validated 20 L1_active) = device_id_hash L1_active.
Proof.
  exact (@validate_bound_device_fails toy_platform 20 "L1" "dev-A" None None
           db_active L1_active eq_refl eq_refl eq_refl eq_refl eq_refl eq_refl).
Defined.

(** C4: on the expired license, a device that is not the bound one is not told
    [Expired]. *)
Lemma validate_expired_other_device_not_expired :
  getLicenseByKey "L1" db_active = Some L1_active /\
  expires_at L1_active < 2000 /\
  fst (sample_validate 2000 dev_B db_active) <> Expired.
Proof.
  repeat split; try reflexivity. vm_compute. discriminate.
Qed.

Lemma validate_expired_never_succeeds_witness :
  succeeded (fst (sample_validate 2000 dev_A db_active)) = false /\
  snd (sample_validate 2000 dev_A db_active) = db_active.
Proof.
  exact (@validate_expired_never_succeeds toy_platform 2000 "L1" "dev-A" None None
           db_active L1_active eq_refl eq_refl eq_refl eq_refl).
Defined.

Lemma reactivation_writes_no_log_witness :
  succeeded (fst (sample_activate 20 dev_A db_active)) = true /\
  snd (sample_activate 20 dev_A db_active) = db_active /\
  logged db_active (snd (sample_activate 20 dev_A db_active)) = 0%nat.
Proof.
  exact (@reactivation_writes_no_log toy_platform
           20 "L1" "dev-A" None None db_active L1_active
           eq_refl eq_refl eq_refl eq_refl eq_refl).
Defined.

(** C6: the second revocation replaces the reason of the first. *)
Lemma second_revoke_overwrites_reason :
  fst (revoke 20 revoke_r1 db_active) = RevokeOk /\
  option_map revoke_reason
    (getLicenseByKey "L1" (snd (revoke 20 revoke_r1 db_active))) =
  Some (Some "r1") /\
  fst (revoke 30 revoke_r2 (snd (revoke 20 revoke_r1 db_active))) = RevokeOk /\
  option_map revoke_reason
    (getLicenseByKey "L1"
       (snd (revoke 30 revoke_r2 (snd (revoke 20 revoke_r1 db_active))))) <>
  Some (Some "r1").
Proof.
  repeat split; try reflexivity. vm_compute. discriminate.
Qed.

Lemma revoke_then_device_calls_witness :
  fst (sample_activate 50 dev_A (snd (revoke 20 revoke_r1 db_active))) =
  Revoked (Some "r1").
Proof.
  exact (proj1
           (proj1 (proj2 (proj2
              (@revoke_then_device_calls toy_platform 20 "L1" "r1" None None db_active L1_active
                 eq_refl eq_refl eq_refl)))
              50 "dev-A" None None eq_refl)).
Defined.

(** C7: the drawn key is taken; no other key is drawn, no license is added,
    and the answer names the taken key as the one issued. *)
Lemma generate_collision_is_not_retried :
  getLicenseByKey (generateLicenseKey 2025 zero_bytes "KFC-KIO" "UK")
    db_collision = Some L0 /\
  licenses (snd (sample_generate 2025 zero_bytes 5 generate_kiosk_0 db_collision))
  = [L0] /\
  match body (fst (sample_generate 2025 zero_bytes 5 generate_kiosk_0 db_collision))
  with
  | JObj o =>
      match field "license" o with
      | Some (JObj l) => field "licenseKey" l
      | _ => None
      end
  | _ => None
  end = Some (JStr (license_key L0)).
Proof.
  repeat split; reflexivity.
Qed.

Lemma generate_draws_one_key_witness :
  licenses (snd (sample_generate 2025 zero_bytes 5 generate_kiosk_0 db_collision))
  = [L0] /\
  getLicenseByKey (generateLicenseKey 2025 zero_bytes "KFC-KIO" "UK")
    (snd (sample_generate 2025 zero_bytes 5 generate_kiosk_0 db_collision))
  = Some L0.
Proof.
  exact (proj1
           (@generate_draws_one_key toy_platform 2025 zero_bytes 5
              "kiosk-0" None None None None None db_collision eq_refl)
           L0 eq_refl).
Defined.

Lemma validate_mismatch_is_server_error_witness :
  sample_validate 20 dev_A db_pending = (ValidationFailed, db_pending) /\
  ValidationFailed <> DeviceIdMismatch.
Proof.
  exact (@validate_mismatch_is_server_error toy_platform 20 "L1" "dev-A" None None
           db_pending L1 eq_refl eq_refl eq_refl eq_refl).
Defined.

Lemma reactivation_assertion_omits_location_witness :
  let first := sample_activate 10 dev_A db_pending in
  let second := sample_activate 20 dev_A (snd first) in
  succeeded (fst first) = true /\ succeeded (fst second) = true /\
  existsb (String.eqb "location") (assertion_keys (fst first)) = true /\
  existsb (String.eqb "location") (assertion_keys (fst second)) = false.
Proof.
  exact (@reactivation_assertion_omits_location toy_platform 10 20 "L1" "dev-A" None None db_pending L1
           eq_refl eq_refl eq_refl eq_refl eq_refl eq_refl).
Defined.

(** ** Further properties of the store *)

Lemma select_update_other (k k' : string) (set : license -> license)
    (rows : list license) :
  String.eqb k k' = false ->
  (forall l, license_key (set l) = license_key l) ->
  select_by_key k' (update_by_key k set rows) = select_by_key k' rows.
Proof.
  intros Hne Hkey. induction rows as [|l rest IH]; [reflexivity|].
  cbn [update_by_key map select_by_key].
  destruct (String.eqb (license_key l) k) eqn:E.
  - rewrite Hkey. apply String.eqb_eq in E. rewrite E, Hne. exact IH.
  - destruct (String.eqb (license_key l) k'); [reflexivity|exact IH].
Qed.

Lemma select_filter_other (k k' : string) (rows : list license) :
  String.eqb k k' = false ->
  select_by_key k' (filter (fun l => negb (has_key k l)) rows) =
  select_by_key k' rows.
Proof.
  intros Hne. induction rows as [|l rest IH]; [reflexivity|].
  cbn [filter select_by_key].
  change (has_key k l) with (String.eqb (license_key l) k).
  destruct (String.eqb (license_key l) k) eqn:E; cbn [negb].
  - apply String.eqb_eq in E. rewrite E, Hne. exact IH.
  - cbn [select_by_key]. destruct (String.eqb (license_key l) k');
      [reflexivity|exact IH].
Qed.

Lemma select_filter_same (k : string) (rows : list license) :
  select_by_key k (filter (fun l => negb (has_key k l)) rows) = None.
Proof.
  induction rows as [|l rest IH]; [reflexivity|].
  cbn [filter]. change (has_key k l) with (String.eqb (license_key l) k).
  destruct (String.eqb (license_key l) k) eqn:E; cbn [negb]; [exact IH|].
  cbn [select_by_key]. rewrite E. exact IH.
Qed.

Lemma select_none_filter (k : string) (rows : list license) :
  select_by_key k rows = None ->
  filter (has_key k) rows = [] /\
  filter (fun l => negb (has_key k l)) rows = rows.
Proof.
  induction rows as [|l rest IH]; [split; reflexivity|].
  cbn [select_by_key filter].
  change (has_key k l) with (String.eqb (license_key l) k).
  destruct (String.eqb (license_key l) k); [discriminate|].
  intros H. destruct (IH H) as [H1 H2]. cbn [negb]. rewrite H1, H2.
  split; reflexivity.
Qed.

Lemma select_app_old (k : string) (rows extra : list license) (l : license) :
  select_by_key k rows = Some l -> select_by_key k (rows ++ extra) = Some l.
Proof.
  induction rows as [|x rest IH]; cbn [app select_by_key]; [discriminate|].
  destruct (String.eqb (license_key x) k); [trivial|exact IH].
Qed.

(** X1.  The three [UPDATE] statements and the [DELETE] act on the rows of
    one key: the license stored under any other key is what it was, and so
    are both logs. *)
Theorem writes_touch_one_key k k' h reason now db :
  String.eqb k k' = false ->
  getLicenseByKey k' (activateLicense k h now db) = getLicenseByKey k' db /\
  getLicenseByKey k' (updateValidation k now db) = getLicenseByKey k' db /\
  getLicenseByKey k' (revokeLicense k reason now db) = getLicenseByKey k' db /\
  getLicenseByKey k' (snd (deleteLicense k db)) = getLicenseByKey k' db /\
  validation_logs (snd (deleteLicense k db)) = validation_logs db /\
  activity_logs (snd (deleteLicense k db)) = activity_logs db.
Proof.
  intros Hne. unfold getLicenseByKey.
  cbn [activateLicense updateValidation revokeLicense deleteLicense snd
       with_licenses licenses validation_logs activity_logs].
  rewrite !select_update_other by (assumption || reflexivity).
  rewrite select_filter_other by assumption. repeat split.
Qed.

(** X2.  [deleteLicense] removes every row of the key: the key is not found
    afterwards, and the reported row count is 0 exactly when the key was not
    there before. *)
Theorem deleteLicense_removes_key k db :
  getLicenseByKey k (snd (deleteLicense k db)) = None /\
  (fst (deleteLicense k db) = 0%nat <-> getLicenseByKey k db = None).
Proof.
  split; [apply select_filter_same|].
  unfold getLicenseByKey. cbn [deleteLicense fst].
  induction (licenses db) as [|l rest IH]; [split; reflexivity|].
  cbn [filter select_by_key].
  change (has_key k l) with (String.eqb (license_key l) k).
  destruct (String.eqb (license_key l) k); [split; discriminate|exact IH].
Qed.

(** X3.  Insert and look up: on a key that is not taken, [createLicense]
    succeeds; the key then leads to a [pending] row with no fingerprint and
    no activation, validation or revocation data, carrying the dates and the
    kiosk name it was given, and every license that was there is still found
    under its key. *)
Theorem createLicense_then_lookup d now db :
  getLicenseByKey (ld_licenseKey d) db = None ->
  exists db' l,
    createLicense d now db = inr db' /\
    getLicenseByKey (ld_licenseKey d) db' = Some l /\
    license_key l = ld_licenseKey d /\ kiosk_name l = ld_kioskName d /\
    status l = pending /\ device_id_hash l = None /\
    issued_at l = ld_issuedAt d /\ expires_at l = ld_expiresAt d /\
    activated_at l = None /\ last_validated_at l = None /\
    revoked_at l = None /\ revoke_reason l = None /\
    (forall k' l', getLicenseByKey k' db = Some l' ->
                   getLicenseByKey k' db' = Some l').
Proof.
  intros Hfree. unfold createLicense. unfold getLicenseByKey in Hfree.
  rewrite Hfree. eexists. eexists. split; [reflexivity|].
  split; [apply select_by_key_app_new; [exact Hfree|reflexivity]|].
  repeat split. intros k' l' H. apply select_app_old. exact H.
Qed.

(** X4.  Insert and delete: deleting a license that was just created under a
    free key gives back the table of licenses as it was, and reports one
    row. *)
Theorem createLicense_then_deleteLicense d now db db' :
  getLicenseByKey (ld_licenseKey d) db = None ->
  createLicense d now db = inr db' ->
  deleteLicense (ld_licenseKey d) db' = (1%nat, db).
Proof.
  intros Hfree. unfold createLicense. unfold getLicenseByKey in Hfree.
  rewrite Hfree. intros H. injection H as <-.
  unfold deleteLicense, with_licenses.
  cbn [licenses validation_logs activity_logs].
  rewrite !filter_app. destruct (select_none_filter _ _ Hfree) as [H1 H2].
  rewrite H1, H2. cbn [filter]. unfold has_key. cbn [license_key].
  rewrite String.eqb_refl. cbn [negb app List.length]. rewrite app_nil_r.
  destruct db; reflexivity.
Qed.

Lemma update_update (k : string) (f g : license -> license)
    (rows : list license) :
  (forall l, license_key (f l) = license_key l) ->
  update_by_key k g (update_by_key k f rows) =
  update_by_key k (fun l => g (f l)) rows.
Proof.
  intros Hkey. unfold update_by_key. rewrite map_map. apply map_ext.
  intros l. destruct (String.eqb (license_key l) k) eqn:E.
  - rewrite Hkey, E. reflexivity.
  - rewrite E. reflexivity.
Qed.

(** X5.  Two validations of one key: the second write wins.  The database
    after [updateValidation] at [t1] and then at [t2] is the database after
    the one at [t2] alone, whichever of the two instants is the later one, so
    [last_validated_at] moves back when [t2] is earlier than [t1]. *)
Theorem updateValidation_last_write_wins k t1 t2 db :
  updateValidation k t2 (updateValidation k t1 db) = updateValidation k t2 db /\
  option_map last_validated_at
    (getLicenseByKey k (updateValidation k t2 (updateValidation k t1 db))) =
  option_map (fun _ => Some t2) (getLicenseByKey k db).
Proof.
  assert (E : updateValidation k t2 (updateValidation k t1 db) =
              updateValidation k t2 db).
  { unfold updateValidation, with_licenses.
    cbn [licenses validation_logs activity_logs].
    rewrite update_update by reflexivity. reflexivity. }
  split; [exact E|]. rewrite E, getLicenseByKey_updateValidation.
  destruct (getLicenseByKey k db); reflexivity.
Qed.

(** X6.  [activateLicense] does not look at the status.  Applied to a license
    that [revokeLicense] has revoked, it makes the license [active] again and
    binds it to the new fingerprint, while the reason and the time of the
    revocation stay in the row. *)
Theorem activateLicense_after_revokeLicense k h reason t1 t2 db l :
  getLicenseByKey k db = Some l ->
  exists l',
    getLicenseByKey k (activateLicense k h t2 (revokeLicense k reason t1 db)) =
    Some l' /\
    status l' = active /\ device_id_hash l' = Some h /\
    revoke_reason l' = Some reason /\ revoked_at l' = Some t1 /\
    activated_at l' = Some t2.
Proof.
  intros Hget.
  rewrite getLicenseByKey_activateLicense, getLicenseByKey_revokeLicense, Hget.
  eexists. split; [reflexivity|]. repeat split.
Qed.

Lemma hd_error_filter_sound {A : Type} (p : A -> bool) (rows : list A) (x : A) :
  hd_error (filter p rows) = Some x -> In x rows /\ p x = true.
Proof.
  induction rows as [|y rest IH]; cbn [filter hd_error]; [discriminate|].
  destruct (p y) eqn:E.
  - cbn [hd_error]. intros H. injection H as <-. split; [left; reflexivity|exact E].
  - intros H. destruct (IH H). split; [right; assumption|assumption].
Qed.

Lemma hd_error_filter_none {A : Type} (p : A -> bool) (rows : list A) :
  hd_error (filter p rows) = None <-> forall x, In x rows -> p x = false.
Proof.
  induction rows as [|y rest IH]; cbn [filter hd_error].
  - split; [intros _ x []|reflexivity].
  - destruct (p y) eqn:E.
    + cbn [hd_error]. split; [discriminate|].
      intros H. rewrite (H y) in E by (left; reflexivity). discriminate.
    + rewrite IH. split.
      * intros H x [<-|Hin]; [exact E|exact (H x Hin)].
      * intros H x Hin. apply H. right. exact Hin.
Qed.

(** X7.  Looking a license up by device.  What [getLicenseByDeviceId] returns
    is a row of the table that is [active] and carries exactly that
    fingerprint; it returns nothing exactly when no such row exists; and after
    [revokeLicense] of a key it never returns a license of that key. *)
Theorem getLicenseByDeviceId_active_only h db :
  (forall l, getLicenseByDeviceId h db = Some l ->
     In l (licenses db) /\ status l = active /\ device_id_hash l = Some h) /\
  (getLicenseByDeviceId h db = None <->
     forall l, In l (licenses db) ->
       status l = active -> device_id_hash l <> Some h) /\
  (forall k reason now l,
     getLicenseByDeviceId h (revokeLicense k reason now db) = Some l ->
     has_key k l = false).
Proof.
  assert (Hb : forall l, bound_to h l = true <->
                         status l = active /\ device_id_hash l = Some h).
  { intros l. unfold bound_to, strict_eq.
    destruct (device_id_hash l) as [s|], (status l); cbn [status_eqb andb];
      rewrite ?andb_false_r; try (split; [discriminate|intros [? ?]; discriminate]).
    rewrite andb_true_r, String.eqb_eq.
    split; [intros ->; split; reflexivity|intros [_ H]; injection H; trivial]. }
  split; [|split].
  - intros l H. apply hd_error_filter_sound in H. destruct H as [Hin Hp].
    apply Hb in Hp. tauto.
  - unfold getLicenseByDeviceId. rewrite hd_error_filter_none. split.
    + intros H l Hin Hst Hfp. specialize (H l Hin).
      rewrite (proj2 (Hb l) (conj Hst Hfp)) in H. discriminate.
    + intros H l Hin. destruct (bound_to h l) eqn:E; [|reflexivity].
      apply Hb in E. destruct E as [Hst Hfp]. exfalso. exact (H l Hin Hst Hfp).
  - intros k reason now l H. apply hd_error_filter_sound in H.
    destruct H as [Hin Hp]. apply Hb in Hp. destruct Hp as [Hst _].
    cbn [revokeLicense with_licenses licenses] in Hin. unfold update_by_key in Hin.
    apply in_map_iff in Hin. destruct Hin as [x [Hx _]].
    unfold has_key. destruct (String.eqb (license_key l) k) eqn:E; [|reflexivity].
    destruct (String.eqb (license_key x) k) eqn:Ex.
    + subst l. discriminate Hst.
    + subst l. rewrite E in Ex. discriminate.
Qed.

(** ** The license key *)

Lemma hex_digit_upper (n : N) :
  is_upper_hex (upper_ascii (hex_digit n)) = true.
Proof.
  destruct n as [|p]; [reflexivity|].
  do 4 (destruct p as [p|p|]; try reflexivity).
Qed.

Lemma segment_of_two_bytes (bytes : list Byte.byte) :
  List.length bytes = 2%nat ->
  is_segment (substring 0 4 (toUpperCase (toString_hex bytes))) = true.
Proof.
  destruct bytes as [|a [|b [|c rest]]]; try discriminate. intros _.
  cbn [toString_hex toUpperCase substring].
  unfold is_segment. cbn [String.length Nat.eqb list_ascii_of_string forallb andb].
  rewrite !hex_digit_upper. reflexivity.
Qed.

(** X8.  The shape of a license key.  When every [crypto.randomBytes(2)]
    returns two bytes, the key is the prefix, the country and the year in
    decimal followed by four segments, all joined by dashes, and every segment
    is four characters out of [0-9A-F]. *)
Theorem generateLicenseKey_shape year randomBytes prefix ctry :
  (forall i, List.length (randomBytes i) = 2%nat) ->
  exists s0 s1 s2 s3,
    generateLicenseKey year randomBytes prefix ctry =
    prefix ++ "-" ++ ctry ++ "-" ++ NilZero.string_of_uint (N.to_uint year)
           ++ "-" ++ s0 ++ "-" ++ s1 ++ "-" ++ s2 ++ "-" ++ s3 /\
    is_segment s0 = true /\ is_segment s1 = true /\
    is_segment s2 = true /\ is_segment s3 = true.
Proof.
  intros Hlen. unfold generateLicenseKey, join_dash.
  cbn [seq map String.concat].
  do 4 eexists. split; [reflexivity|].
  repeat split; apply segment_of_two_bytes; apply Hlen.
Qed.

Lemma append_cancel_l (s a b : string) : s ++ a = s ++ b -> a = b.
Proof.
  induction s as [|c s IH]; cbn [append]; [trivial|].
  intros H. injection H as H. exact (IH H).
Qed.

Lemma hex_digit_injective (n m : N) :
  (n < 16)%N -> (m < 16)%N ->
  upper_ascii (hex_digit n) = upper_ascii (hex_digit m) -> n = m.
Proof.
  intros Hn Hm. rewrite <- (N2Nat.id n), <- (N2Nat.id m).
  assert (Hi : (N.to_nat n < 16)%nat) by lia.
  assert (Hj : (N.to_nat m < 16)%nat) by lia.
  generalize dependent (N.to_nat m). generalize dependent (N.to_nat n).
  intros i Hi j Hj.
  do 16 (destruct i as [|i];
         [do 16 (destruct j as [|j];
                 [intros H; vm_compute in H; first [discriminate H|reflexivity]|]);
          lia|]).
  lia.
Qed.

Lemma byte_of_nibbles (a b : Byte.byte) :
  upper_ascii (hex_digit (Byte.to_N a / 16)) =
  upper_ascii (hex_digit (Byte.to_N b / 16)) ->
  upper_ascii (hex_digit (Byte.to_N a mod 16)) =
  upper_ascii (hex_digit (Byte.to_N b mod 16)) ->
  a = b.
Proof.
  intros Hhi Hlo.
  pose proof (Byte.to_N_bounded a) as Ba. pose proof (Byte.to_N_bounded b) as Bb.
  apply hex_digit_injective in Hhi;
    [|apply N.Div0.div_lt_upper_bound; lia|apply N.Div0.div_lt_upper_bound; lia].
  apply hex_digit_injective in Hlo;
    [|apply N.mod_lt; lia|apply N.mod_lt; lia].
  assert (E : Byte.to_N a = Byte.to_N b).
  { rewrite (N.div_mod (Byte.to_N a) 16), (N.div_mod (Byte.to_N b) 16) by lia.
    rewrite Hhi, Hlo. reflexivity. }
  pose proof (Byte.of_to_N a) as Ha. pose proof (Byte.of_to_N b) as Hb.
  rewrite E in Ha. rewrite Ha in Hb. injection Hb. trivial.
Qed.

Lemma segment_injective (x y : list Byte.byte) :
  List.length x = 2%nat -> List.length y = 2%nat ->
  substring 0 4 (toUpperCase (toString_hex x)) =
  substring 0 4 (toUpperCase (toString_hex y)) -> x = y.
Proof.
  destruct x as [|a [|b [|? ?]]]; try discriminate.
  destruct y as [|c [|d [|? ?]]]; try discriminate. intros _ _.
  cbn [toString_hex toUpperCase substring]. intros H.
  injection H as H1 H2 H3 H4.
  rewrite (byte_of_nibbles a c H1 H2), (byte_of_nibbles b d H3 H4). reflexivity.
Qed.

(** X9.  The key determines the random draws.  For one prefix, country and
    year, two runs of the generator whose draws are two bytes each return the
    same key only if all four draws are the same. *)
Theorem generateLicenseKey_injective year r1 r2 prefix ctry :
  (forall i, List.length (r1 i) = 2%nat) ->
  (forall i, List.length (r2 i) = 2%nat) ->
  generateLicenseKey year r1 prefix ctry = generateLicenseKey year r2 prefix ctry ->
  forall i, (i < 4)%nat -> r1 i = r2 i.
Proof.
  intros H1 H2 Heq.
  unfold generateLicenseKey, join_dash in Heq. cbn [seq map String.concat] in Heq.
  do 6 apply append_cancel_l in Heq.
  assert (Hs : forall i,
    exists c1 c2 c3 c4,
      substring 0 4 (toUpperCase (toString_hex (r1 i))) =
      String c1 (String c2 (String c3 (String c4 EmptyString)))).
  { intros i. specialize (H1 i).
    destruct (r1 i) as [|a [|b [|? ?]]]; try discriminate.
    cbn [toString_hex toUpperCase substring]. do 4 eexists. reflexivity. }
  assert (Ht : forall i,
    exists c1 c2 c3 c4,
      substring 0 4 (toUpperCase (toString_hex (r2 i))) =
      String c1 (String c2 (String c3 (String c4 EmptyString)))).
  { intros i. specialize (H2 i).
    destruct (r2 i) as [|a [|b [|? ?]]]; try discriminate.
    cbn [toString_hex toUpperCase substring]. do 4 eexists. reflexivity. }
  assert (Hseg : forall i, (i < 4)%nat ->
    substring 0 4 (toUpperCase (toString_hex (r1 i))) =
    substring 0 4 (toUpperCase (toString_hex (r2 i)))).
  { destruct (Hs 0%nat) as (a1 & a2 & a3 & a4 & Ea), (Hs 1%nat) as (b1 & b2 & b3 & b4 & Eb),
             (Hs 2%nat) as (c1 & c2 & c3 & c4 & Ec), (Hs 3%nat) as (d1 & d2 & d3 & d4 & Ed).
    destruct (Ht 0%nat) as (a1' & a2' & a3' & a4' & Ea'), (Ht 1%nat) as (b1' & b2' & b3' & b4' & Eb'),
             (Ht 2%nat) as (c1' & c2' & c3' & c4' & Ec'), (Ht 3%nat) as (d1' & d2' & d3' & d4' & Ed').
    rewrite Ea, Eb, Ec, Ed, Ea', Eb', Ec', Ed' in Heq. cbn [append] in Heq.
    injection Heq as -> -> -> -> -> -> -> -> -> -> -> -> -> -> -> ->.
    intros i Hi.
    destruct i as [|[|[|[|i]]]]; [| | | |lia]; congruence. }
  intros i Hi. apply segment_injective; [apply H1|apply H2|apply Hseg; exact Hi].
Qed.

(** ** Further properties of the routes *)

Section RouteProperties.

Context {platform : Platform} {cipher : OfflineCipher}.

Ltac route_cbn :=
  cbn [run try_catch bind call fire not_promise exec unbound fst snd].

Ltac route_cases :=
  repeat (route_cbn;
          match goal with
          | |- context [if ?c then _ else _] => destruct c eqn:?
          | |- context [match getLicenseByKey ?k ?db with _ => _ end] =>
              destruct (getLicenseByKey k db) eqn:?
          | |- context [match createLicense ?d ?t ?db with _ => _ end] =>
              destruct (createLicense d t db) eqn:?
          end);
  route_cbn.

(** [POST /activate], served alone, branch by branch. *)
Lemma activate_unfold now req db :
  activate now req db =
  if falsy (body_licenseKey req) || falsy (body_deviceId req) then
    (res_status_json 400 (error_body "License key and device ID required"), db)
  else
    let k := str (body_licenseKey req) in
    let h := hashDeviceId (str (body_deviceId req)) in
    let log ok message :=
      mkLogData k h "activation" ok message (ip req) (user_agent req) in
    match getLicenseByKey k db with
    | None =>
        (res_status_json 404
           [("error", JStr "License key not found");
            ("hint", JStr "Please generate a license first using the admin portal")],
         logValidation (log false (Some "License key not found")) db)
    | Some l =>
        if already_activated l then
          if strict_eq (device_id_hash l) h then
            (license_json (existing_license l h)
               (signLicense (JObj (existing_license l h)) privateKey), db)
          else
            (DeviceMismatch,
             logValidation
               (log false (Some "License already activated on another device"))
               db)
        else if status_eqb (status l) revoked then
          (Revoked (revoke_reason l),
           logValidation (log false (Some "License has been revoked")) db)
        else if expires_at l <? now then
          (Expired, logValidation (log false (Some "License has expired")) db)
        else
          (license_json (activated_license l h now)
             (signLicense (JObj (activated_license l h now)) privateKey),
           logValidation (log true None) (activateLicense k h now db))
    end.
Proof.
  unfold activate, serve, post_activate. cbv zeta. route_cases; reflexivity.
Qed.

(** [POST /validate], served alone, branch by branch. *)
Lemma validate_unfold now req db :
  validate now req db =
  if falsy (body_licenseKey req) || falsy (body_deviceId req) then
    (res_status_json 400 (error_body "License key and device ID required"), db)
  else
    let k := str (body_licenseKey req) in
    let h := hashDeviceId (str (body_deviceId req)) in
    match getLicenseByKey k db with
    | None =>
        (res_status_json 404 (error_body "License not found"),
         logValidation
           (mkLogData k h "periodic" false (Some "License key not found")
              (ip req) (user_agent req)) db)
    | Some l =>
        (ValidationFailed,
         if negb (strict_eq (device_id_hash l) h) then db
         else if status_eqb (status l) revoked then db
         else if expires_at l <? now then db
         else updateValidation k now db)
    end.
Proof.
  unfold validate, serve, post_validate. cbv zeta. route_cases; reflexivity.
Qed.

(** [POST /:licenseKey/revoke], served alone. *)
Lemma revoke_unfold now req db :
  revoke now req db =
  if falsy (body_reason req) then
    (res_status_json 400 (error_body "Revocation reason required"), db)
  else
    (RevokeOk,
     logActivity
       (mkActivityData (rev_user_id req) "revoke_license" (Some "license")
          (Some (params_licenseKey req))
          (Some ("Reason: " ++ str (body_reason req))) (rev_ip req))
       (revokeLicense (params_licenseKey req) (str (body_reason req)) now db)).
Proof.
  unfold revoke, serve, post_revoke. cbv zeta. route_cases; reflexivity.
Qed.

(** [POST /generate], served alone: either the request is refused and nothing
    changes, or it is answered 200 and one activity row is added after the
    insert, which the store carries out on a free key and refuses on a taken
    one. *)
Lemma generate_outcome year rnd now req db :
  (succeeded (fst (generate year rnd now req db)) = false /\
   snd (generate year rnd now req db) = db) \/
  (succeeded (fst (generate year rnd now req db)) = true /\
   exists a,
     snd (generate year rnd now req db) =
     logActivity a
       match createLicense (generated_license year rnd now req) now db with
       | inr db' => db'
       | inl _ => db
       end).
Proof.
  unfold generate, serve, post_generate, toISOString, generated_license, expiry_of.
  destruct (falsy (body_kioskName req)); [left; split; reflexivity|].
  destruct (Z.abs _ <=? _); route_cbn; [|left; split; reflexivity].
  right. destruct (createLicense _ now db) eqn:E; route_cbn;
    (split; [reflexivity|eexists; reflexivity]).
Qed.

(** [POST /generate-offline], served alone. *)
Lemma generate_offline_unfold iv now req db :
  generate_offline iv now req db =
  if falsy (off_licenseKey req) || falsy (off_deviceId req) then
    (res_status_json 400 (error_body "License key and device ID required"), db)
  else
    let k := str (off_licenseKey req) in
    let d := str (off_deviceId req) in
    let licenseData := offline_license Promise (hashDeviceId d) now in
    let signed :=
      (licenseData ++
       [("signature", JStr (signLicense (JObj licenseData) privateKey))])%list in
    (res_json
       [("success", JBool true);
        ("licenseFile", JObj (encryptLicense iv (JObj signed) d));
        ("licenseData", JObj signed)],
     logActivity
       (mkActivityData (off_user_id req) "generate_offline_license"
          (Some "license") (Some k)
          (Some ("Device ID: " ++ substring 0 8 d ++ "...")) (off_ip req))
       db).
Proof.
  unfold generate_offline, serve, post_generate_offline. cbv zeta.
  route_cases; reflexivity.
Qed.

(** X10.  A kiosk request that lacks the license key or the device id (the
    field is absent or the empty string) is answered 400 by [POST /activate]
    and by [POST /validate] alike; nothing is looked up, written or logged. *)
Theorem device_routes_reject_missing_fields now req db :
  falsy (body_licenseKey req) || falsy (body_deviceId req) = true ->
  activate now req db =
    (res_status_json 400 (error_body "License key and device ID required"), db) /\
  validate now req db =
    (res_status_json 400 (error_body "License key and device ID required"), db).
Proof.
  intros H. rewrite activate_unfold, validate_unfold, H. split; reflexivity.
Qed.

(** X11.  An unknown license key.  [POST /activate] answers 404
    "License key not found" with the hint to generate a license first, and
    [POST /validate] answers 404 "License not found"; each appends exactly one failed attempt to
    [validation_logs], with the key as it was sent, the hash of the device id
    and the message "License key not found", and leaves the licenses alone. *)
Theorem unknown_key_is_logged_once now k d ip0 ua db :
  String.eqb k "" = false -> String.eqb d "" = false ->
  getLicenseByKey k db = None ->
  let row kind :=
    mkValidationLog k (hashDeviceId d) kind false (Some "License key not found")
      (or_null ip0) (or_null ua) in
  fst (activate now (kiosk_request k d ip0 ua) db) =
    res_status_json 404
      [("error", JStr "License key not found");
       ("hint", JStr "Please generate a license first using the admin portal")] /\
  snd (activate now (kiosk_request k d ip0 ua) db) =
    mkDatabase (licenses db) (validation_logs db ++ [row "activation"])
      (activity_logs db) /\
  fst (validate now (kiosk_request k d ip0 ua) db) =
    res_status_json 404 (error_body "License not found") /\
  snd (validate now (kiosk_request k d ip0 ua) db) =
    mkDatabase (licenses db) (validation_logs db ++ [row "periodic"])
      (activity_logs db).
Proof.
  intros Hk Hd Hget row. subst row.
  rewrite activate_unfold, validate_unfold.
  cbn [kiosk_request body_licenseKey body_deviceId ip user_agent falsy str orb].
  rewrite Hk, Hd. cbn [orb]. cbv zeta. rewrite Hget. repeat split.
Qed.

(** X12.  The first activation.  For a license that is found, not yet
    activated, not revoked and not expired, [POST /activate] answers 200 with
    the hash of the device id in the assertion; afterwards the stored license
    is [active], bound to that hash, with [activated_at] and
    [last_validated_at] at the time of the call and the expiry date it had;
    exactly one successful attempt is appended to [validation_logs]. *)
Theorem first_activation_binds now k d ip0 ua db l :
  String.eqb k "" = false -> String.eqb d "" = false ->
  getLicenseByKey k db = Some l ->
  already_activated l = false ->
  status_eqb (status l) revoked = false ->
  (expires_at l <? now) = false ->
  let out := activate now (kiosk_request k d ip0 ua) db in
  succeeded (fst out) = true /\
  field "deviceId"
    match body (fst out) with
    | JObj o => match field "license" o with Some (JObj a) => a | _ => [] end
    | _ => []
    end = Some (JStr (hashDeviceId d)) /\
  (exists l',
     getLicenseByKey k (snd out) = Some l' /\
     status l' = active /\ device_id_hash l' = Some (hashDeviceId d) /\
     activated_at l' = Some now /\ last_validated_at l' = Some now /\
     expires_at l' = expires_at l /\ issued_at l' = issued_at l) /\
  validation_logs (snd out) =
    (validation_logs db ++
     [mkValidationLog k (hashDeviceId d) "activation" true None
        (or_null ip0) (or_null ua)])%list.
Proof.
  intros Hk Hd Hget Hact Hrev Hexp out. subst out.
  rewrite (activate_found _ _ _ _ _ _ _ Hk Hd Hget). cbv zeta.
  rewrite Hact, Hrev, Hexp. cbn [fst snd]. split; [reflexivity|].
  split; [reflexivity|]. split; [|reflexivity].
  rewrite getLicenseByKey_logValidation, getLicenseByKey_activateLicense, Hget.
  eexists. split; [reflexivity|]. repeat split.
Qed.

(** *** What a request does to the tables *)

Lemma evolves_refl l : evolves l l.
Proof. unfold evolves. repeat split; auto. Qed.

Lemma settled_evolves l l' : evolves l l' -> settled l = true -> settled l' = true.
Proof.
  unfold evolves, settled, already_activated.
  intros (_ & _ & _ & _ & _ & _ & _ & Hrank & Hfp) Hs.
  specialize (Hfp Hs). unfold settled, already_activated in Hfp. rewrite Hfp.
  destruct (status l), (status l'); cbn [rank status_eqb andb orb] in *;
    try lia; try discriminate; try reflexivity; exact Hs.
Qed.

Lemma evolves_trans l1 l2 l3 : evolves l1 l2 -> evolves l2 l3 -> evolves l1 l3.
Proof.
  intros H12 H23. pose proof (settled_evolves _ _ H12) as Hs.
  unfold evolves in *.
  destruct H12 as (A1 & A2 & A3 & A4 & A5 & A6 & A7 & A8 & A9).
  destruct H23 as (B1 & B2 & B3 & B4 & B5 & B6 & B7 & B8 & B9).
  repeat split; try congruence; try lia.
  intros H. rewrite B9 by (apply Hs; exact H). apply A9. exact H.
Qed.

Lemma table_change_lookup rows rows' :
  table_change false rows rows' ->
  forall k l, select_by_key k rows = Some l ->
  exists l', select_by_key k rows' = Some l' /\ evolves l l'.
Proof.
  intros [|k0 set l0 Hget Hkey Hev|l0 Hfree|k0 Hd] k l Hl.
  - exists l. split; [exact Hl|apply evolves_refl].
  - destruct (String.eqb k0 k) eqn:E.
    + apply String.eqb_eq in E. subst k0. rewrite select_update_same by exact Hkey.
      rewrite Hl in *. injection Hget as <-. exists (set l). split; [reflexivity|exact Hev].
    + rewrite select_update_other by assumption.
      exists l. split; [exact Hl|apply evolves_refl].
  - exists l. split; [apply select_app_old; exact Hl|apply evolves_refl].
  - discriminate.
Qed.

Lemma select_none_not_in k rows :
  select_by_key k rows = None -> ~ In k (map license_key rows).
Proof.
  induction rows as [|l rest IH]; cbn [select_by_key map In]; [tauto|].
  destruct (String.eqb (license_key l) k) eqn:E; [discriminate|].
  apply String.eqb_neq in E. intros H [F|F]; [exact (E F)|exact (IH H F)].
Qed.

Lemma keys_of_update k set rows :
  (forall l, license_key (set l) = license_key l) ->
  map license_key (update_by_key k set rows) = map license_key rows.
Proof.
  intros Hkey. unfold update_by_key. rewrite map_map. apply map_ext.
  intros l. destruct (String.eqb (license_key l) k); [apply Hkey|reflexivity].
Qed.

Lemma keys_of_filter (p : license -> bool) rows :
  NoDup (map license_key rows) -> NoDup (map license_key (filter p rows)).
Proof.
  induction rows as [|l rest IH]; cbn [filter map]; [trivial|].
  intros H. inversion H as [|x xs Hnotin Hrest]; subst.
  destruct (p l); [|exact (IH Hrest)].
  cbn [map]. constructor; [|exact (IH Hrest)].
  intros Hin. apply Hnotin. apply in_map_iff in Hin.
  destruct Hin as [y [Hy Hf]]. apply filter_In in Hf.
  apply in_map_iff. exists y. tauto.
Qed.

Lemma table_change_keys b rows rows' :
  table_change b rows rows' ->
  NoDup (map license_key rows) -> NoDup (map license_key rows').
Proof.
  intros [|k0 set l0 Hget Hkey Hev|l0 Hfree|k0 Hd] Hnd.
  - exact Hnd.
  - rewrite keys_of_update by exact Hkey. exact Hnd.
  - rewrite map_app. cbn [map]. apply NoDup_rev in Hnd.
    rewrite <- (rev_involutive (map license_key rows ++ [license_key l0])).
    apply NoDup_rev. rewrite rev_app_distr. cbn [rev app]. constructor.
    + rewrite <- in_rev. apply select_none_not_in. exact Hfree.
    + exact Hnd.
  - apply keys_of_filter. exact Hnd.
Qed.

Lemma evolves_activated h now l :
  already_activated l = false -> status_eqb (status l) revoked = false ->
  evolves l (set_activated h now l).
Proof.
  intros Hact Hrev. unfold evolves, settled. rewrite Hact, Hrev.
  cbn [set_activated license_key kiosk_name location_restaurant
       location_country location_region issued_at expires_at status orb].
  repeat split; try discriminate.
  destruct (status l); cbn [rank]; try lia. discriminate.
Qed.

Lemma evolves_validated now l : evolves l (set_validated now l).
Proof. unfold evolves. cbn. repeat split; auto. Qed.

Lemma evolves_revoked reason now l : evolves l (set_revoked reason now l).
Proof.
  unfold evolves. cbn. repeat split; auto. destruct (status l); cbn [rank]; lia.
Qed.

Lemma update_absent k set rows :
  select_by_key k rows = None -> update_by_key k set rows = rows.
Proof.
  induction rows as [|l rest IH]; [reflexivity|].
  cbn [select_by_key update_by_key map].
  destruct (String.eqb (license_key l) k); [discriminate|].
  intros H. unfold update_by_key in IH. rewrite (IH H). reflexivity.
Qed.

(** The table of licenses after one request. *)
Lemma handle_table_change r db :
  table_change (is_delete r) (licenses db) (licenses (snd (handle r db))).
Proof.
  destruct r as [now req|now req|year rnd now req|iv now req|now req|req];
    cbn [handle is_delete].
  - rewrite activate_unfold.
    destruct (falsy _ || falsy _); [apply change_none|]. cbv zeta.
    destruct (getLicenseByKey _ db) as [l|] eqn:Hget; [|apply change_none].
    destruct (already_activated l) eqn:Hact.
    { destruct (strict_eq _ _); apply change_none. }
    destruct (status_eqb (status l) revoked) eqn:Hrev; [apply change_none|].
    destruct (expires_at l <? now); [apply change_none|].
    cbn [snd logValidation activateLicense with_licenses licenses].
    apply (change_update _ _ _ _ l);
      [exact Hget|reflexivity|apply evolves_activated; assumption].
  - rewrite validate_unfold.
    destruct (falsy _ || falsy _); [apply change_none|]. cbv zeta.
    destruct (getLicenseByKey _ db) as [l|] eqn:Hget; [|apply change_none].
    cbn [snd]. destruct (negb _); [apply change_none|].
    destruct (status_eqb _ _); [apply change_none|].
    destruct (_ <? _); [apply change_none|].
    cbn [updateValidation with_licenses licenses].
    apply (change_update _ _ _ _ l);
      [exact Hget|reflexivity|apply evolves_validated].
  - destruct (generate_outcome year rnd now req db)
      as [[_ ->]|[_ (a & ->)]]; [apply change_none|].
    unfold createLicense.
    destruct (select_by_key _ (licenses db)) eqn:Hfree;
      cbn [logActivity licenses]; [apply change_none|].
    apply change_insert. exact Hfree.
  - rewrite generate_offline_unfold.
    destruct (falsy _ || falsy _); apply change_none.
  - rewrite revoke_unfold.
    destruct (falsy _); [apply change_none|].
    cbn [snd logActivity revokeLicense with_licenses licenses].
    destruct (select_by_key (params_licenseKey req) (licenses db)) as [l|] eqn:Hget.
    + apply (change_update _ _ _ _ l);
        [exact Hget|reflexivity|apply evolves_revoked].
    + rewrite update_absent by exact Hget. apply change_none.
  - unfold delete_license. cbn [not_promise].
    cbn [snd logActivity deleteLicense with_licenses licenses].
    apply change_delete. reflexivity.
Qed.

(** The two logs after one request. *)
Lemma handle_logs r db :
  exists v a,
    validation_logs (snd (handle r db)) = (validation_logs db ++ v)%list /\
    activity_logs (snd (handle r db)) = (activity_logs db ++ a)%list /\
    (List.length v + List.length a <= 1)%nat.
Proof.
  assert (Hnone : exists v a,
    validation_logs db = (validation_logs db ++ v)%list /\
    activity_logs db = (activity_logs db ++ a)%list /\
    (List.length v + List.length a <= 1)%nat).
  { exists [], []. rewrite !app_nil_r. cbn. repeat split; lia. }
  assert (Hv : forall d db0,
    validation_logs db0 = validation_logs db ->
    activity_logs db0 = activity_logs db ->
    exists v a,
      validation_logs (logValidation d db0) = (validation_logs db ++ v)%list /\
      activity_logs (logValidation d db0) = (activity_logs db ++ a)%list /\
      (List.length v + List.length a <= 1)%nat).
  { intros d db0 E1 E2.
    exists [mkValidationLog (licenseKey d) (deviceIdHash d) (validationType d)
              (success d) (or_null (errorMessage d)) (or_null (ipAddress d))
              (or_null (userAgent d))], [].
    cbn [logValidation validation_logs activity_logs List.length].
    rewrite E1, E2, app_nil_r. repeat split. lia. }
  assert (Ha : forall d db0,
    validation_logs db0 = validation_logs db ->
    activity_logs db0 = activity_logs db ->
    exists v a,
      validation_logs (logActivity d db0) = (validation_logs db ++ v)%list /\
      activity_logs (logActivity d db0) = (activity_logs db ++ a)%list /\
      (List.length v + List.length a <= 1)%nat).
  { intros d db0 E1 E2.
    exists [],
      [mkActivityLog (match userId d with Some 0 => None | u => u end)
         (action d) (or_null (resourceType d)) (or_null (resourceId d))
         (or_null (details d)) (or_null (ad_ipAddress d))].
    cbn [logActivity validation_logs activity_logs List.length].
    rewrite E1, E2, app_nil_r. repeat split. lia. }
  destruct r as [now req|now req|year rnd now req|iv now req|now req|req];
    cbn [handle].
  - rewrite activate_unfold.
    destruct (falsy _ || falsy _); [exact Hnone|]. cbv zeta.
    destruct (getLicenseByKey _ db) as [l|]; [|apply Hv; reflexivity].
    destruct (already_activated l).
    { destruct (strict_eq _ _); [exact Hnone|apply Hv; reflexivity]. }
    destruct (status_eqb (status l) revoked); [apply Hv; reflexivity|].
    destruct (expires_at l <? now); apply Hv; reflexivity.
  - rewrite validate_unfold.
    destruct (falsy _ || falsy _); [exact Hnone|]. cbv zeta.
    destruct (getLicenseByKey _ db) as [l|]; [|apply Hv; reflexivity].
    cbn [snd]. destruct (negb _); [exact Hnone|].
    destruct (status_eqb _ _); [exact Hnone|].
    destruct (_ <? _); [exact Hnone|].
    exists [], []. cbn [updateValidation with_licenses validation_logs activity_logs].
    rewrite !app_nil_r. cbn. repeat split; lia.
  - destruct (generate_outcome year rnd now req db)
      as [[_ ->]|[_ (a & ->)]]; [exact Hnone|].
    unfold createLicense.
    destruct (select_by_key _ (licenses db)); apply Ha; reflexivity.
  - rewrite generate_offline_unfold.
    destruct (falsy _ || falsy _); [exact Hnone|]. apply Ha; reflexivity.
  - rewrite revoke_unfold.
    destruct (falsy _); [exact Hnone|]. apply Ha; reflexivity.
  - unfold delete_license. cbn [not_promise]. apply Ha; reflexivity.
Qed.

(** *** Invariants of a sequence of requests *)

(** X14.  Both logs are append-only.  After any sequence of requests, deletions
    included, [validation_logs] and [activity_logs] are what they were followed
    by new rows, and the requests have added at most one row each, to one of
    the two logs. *)
Theorem requests_only_append_to_logs rs db :
  exists v a,
    validation_logs (handle_all rs db) = (validation_logs db ++ v)%list /\
    activity_logs (handle_all rs db) = (activity_logs db ++ a)%list /\
    (List.length v + List.length a <= List.length rs)%nat.
Proof.
  revert db. induction rs as [|r rest IH]; intros db; cbn [handle_all List.length].
  - exists [], []. rewrite !app_nil_r. cbn. repeat split; lia.
  - destruct (handle_logs r db) as (v1 & a1 & Hv1 & Ha1 & Hn1).
    destruct (IH (snd (handle r db))) as (v2 & a2 & Hv2 & Ha2 & Hn2).
    exists (v1 ++ v2)%list, (a1 ++ a2)%list.
    rewrite Hv2, Ha2, Hv1, Ha1, <- !app_assoc, !length_app.
    repeat split; lia.
Qed.

(** X15.  License keys stay unique.  If no two rows of [licenses] share a key,
    this is still so after any sequence of requests. *)
Theorem requests_keep_keys_unique rs db :
  NoDup (map license_key (licenses db)) ->
  NoDup (map license_key (licenses (handle_all rs db))).
Proof.
  revert db. induction rs as [|r rest IH]; intros db Hnd; cbn [handle_all].
  - exact Hnd.
  - apply IH. exact (table_change_keys _ _ _ (handle_table_change r db) Hnd).
Qed.

(** X16.  A license only moves forward.  Over any sequence of requests without
    a deletion, a license that is stored stays stored under its key; its kiosk
    name, location, issue date and expiry date never change; its status never
    moves back along [pending], [active], [revoked]; and once it is activated
    with a fingerprint, or revoked, its fingerprint never changes. *)
Theorem licenses_only_move_forward rs db k l :
  forallb (fun r => negb (is_delete r)) rs = true ->
  getLicenseByKey k db = Some l ->
  exists l', getLicenseByKey k (handle_all rs db) = Some l' /\ evolves l l'.
Proof.
  revert db l. induction rs as [|r rest IH]; intros db l Hnd Hget;
    cbn [handle_all forallb] in *.
  - exists l. split; [exact Hget|apply evolves_refl].
  - apply andb_prop in Hnd. destruct Hnd as [Hr Hrest].
    pose proof (handle_table_change r db) as Hc.
    destruct (is_delete r); [discriminate|].
    destruct (table_change_lookup _ _ Hc k l Hget) as (l1 & Hget1 & Hev1).
    destruct (IH _ l1 Hrest Hget1) as (l2 & Hget2 & Hev2).
    exists l2. split; [exact Hget2|exact (evolves_trans _ _ _ Hev1 Hev2)].
Qed.

(** X17.  A request that is answered 400 has changed nothing. *)
Theorem bad_requests_change_nothing r db :
  status_code (fst (handle r db)) = 400 -> snd (handle r db) = db.
Proof.
  destruct r as [now req|now req|year rnd now req|iv now req|now req|req];
    cbn [handle].
  - rewrite activate_unfold.
    destruct (falsy _ || falsy _); [reflexivity|]. cbv zeta.
    destruct (getLicenseByKey _ db) as [l|]; [|discriminate].
    destruct (already_activated l).
    { destruct (strict_eq _ _); discriminate. }
    destruct (status_eqb _ _); [discriminate|].
    destruct (_ <? _); discriminate.
  - rewrite validate_unfold.
    destruct (falsy _ || falsy _); [reflexivity|]. cbv zeta.
    destruct (getLicenseByKey _ db); discriminate.
  - destruct (generate_outcome year rnd now req db)
      as [[_ ->]|[Hs _]]; [reflexivity|].
    unfold succeeded in Hs. apply Z.eqb_eq in Hs. rewrite Hs. discriminate.
  - rewrite generate_offline_unfold.
    destruct (falsy _ || falsy _); [reflexivity|discriminate].
  - rewrite revoke_unfold.
    destruct (falsy _); [reflexivity|discriminate].
  - unfold delete_license. cbn [not_promise]. discriminate.
Qed.

(** *** The operator routes that await nothing *)




(** [POST /generate] on a free key with a representable expiry date. *)
Lemma generate_fresh year rnd now kiosk loc ctry days uid ipg db :
  String.eqb kiosk "" = false ->
  let key := generateLicenseKey year rnd "KFC-KIO" (country_of ctry) in
  let req := mkGenerateRequest (Some kiosk) loc ctry days uid ipg in
  getLicenseByKey key db = None ->
  Z.abs (expiry_of now days) <= 8640000000000000 ->
  succeeded (fst (generate year rnd now req db)) = true /\
  exists l,
    getLicenseByKey key (snd (generate year rnd now req db)) = Some l /\
    status l = pending /\ device_id_hash l = None /\
    issued_at l = now /\ expires_at l = expiry_of now days.
Proof.
  intros Hkiosk key req Hfree Hrange. subst key req.
  unfold generate, serve, post_generate, toISOString. unfold expiry_of in Hrange.
  cbn [body_kioskName body_country body_validityDays body_location falsy].
  rewrite Hkiosk. apply Z.leb_le in Hrange. rewrite Hrange.
  route_cbn. unfold createLicense. cbn [ld_licenseKey].
  unfold getLicenseByKey in Hfree. rewrite Hfree. route_cbn.
  split; [reflexivity|]. eexists. split.
  - unfold getLicenseByKey. cbn [logActivity licenses].
    apply select_by_key_app_new; [exact Hfree|reflexivity].
  - repeat split.
Qed.

(** X21.  A negative [validityDays] is accepted.  The license is issued with an
    expiry date before its issue date, and from the moment of issue every
    attempt to activate it is answered [Expired]. *)
Theorem negative_validity_issues_an_expired_license
    year rnd now kiosk loc ctry v uid ipg db :
  String.eqb kiosk "" = false ->
  v < 0 ->
  Z.abs (expiry_of now (Some v)) <= 8640000000000000 ->
  let key := generateLicenseKey year rnd "KFC-KIO" (country_of ctry) in
  let out :=
    generate year rnd now (mkGenerateRequest (Some kiosk) loc ctry (Some v) uid ipg)
      db in
  getLicenseByKey key db = None ->
  succeeded (fst out) = true /\
  (exists l, getLicenseByKey key (snd out) = Some l /\
             expires_at l < issued_at l) /\
  (forall now' d ip0 ua,
     now <= now' -> String.eqb d "" = false ->
     fst (activate now' (kiosk_request key d ip0 ua) (snd out)) = Expired).
Proof.
  intros Hkiosk Hv Hrange key out Hfree. subst out.
  destruct (generate_fresh year rnd now kiosk loc ctry (Some v) uid ipg db
              Hkiosk Hfree Hrange) as (Hok & l & Hget & Hst & Hfp & Hiss & Hexp).
  fold key in Hget.
  assert (Hlt : expires_at l < now).
  { rewrite Hexp. unfold expiry_of, or_number. destruct v; lia. }
  split; [exact Hok|]. split.
  - exists l. split; [exact Hget|]. rewrite Hiss. exact Hlt.
  - intros now' d ip0 ua Hnow Hd.
    assert (Hk : String.eqb key "" = false) by reflexivity.
    rewrite (activate_found _ _ _ _ _ _ _ Hk Hd Hget). cbv zeta.
    unfold already_activated. rewrite Hst. cbn [status_eqb andb].
    assert (E : (expires_at l <? now') = true) by (apply Z.ltb_lt; lia).
    rewrite E. reflexivity.
Qed.

Ltac race_cbn :=
  cbn [run try_catch bind call exec step unbound fst snd interleave
       body_licenseKey body_deviceId ip user_agent str falsy orb negb
       kiosk_request params_licenseKey body_reason].

Ltac race_rewrite :=
  match goal with
  | H : String.eqb ?a ?b = _ |- context [String.eqb ?a ?b] => rewrite H
  | H : getLicenseByKey ?k ?db = _ |- context [getLicenseByKey ?k ?db] =>
      rewrite H
  | H : already_activated ?l = _ |- context [already_activated ?l] => rewrite H
  | H : status_eqb ?a ?b = _ |- context [status_eqb ?a ?b] => rewrite H
  | H : Z.ltb ?a ?b = _ |- context [Z.ltb ?a ?b] => rewrite H
  end.

Ltac race := repeat (race_cbn; race_rewrite); race_cbn.

(** X22.  An activation in flight undoes a revocation.  When Activate has read
    a pending license and the operator's revoke is carried out before
    Activate writes, the operator is told that the license is revoked, the
    kiosk is told that it is activated, and the stored license ends up
    [active] and bound to the kiosk, with the reason of the revocation still
    in the row. *)
Theorem activation_in_flight_undoes_revocation
    now1 now2 k d reason ip0 ua uid ipr db l :
  String.eqb k "" = false -> String.eqb d "" = false ->
  String.eqb reason "" = false ->
  getLicenseByKey k db = Some l ->
  status l = pending ->
  (expires_at l <? now1) = false ->
  let '(p1, p2, db') :=
    interleave [true; false; false; false; true; true] now1 now2
      (post_activate now1 (kiosk_request k d ip0 ua))
      (post_revoke (mkRevokeRequest k (Some reason) uid ipr)) db in
  answered p2 = Some RevokeOk /\
  option_map succeeded (answered p1) = Some true /\
  exists l',
    getLicenseByKey k db' = Some l' /\
    status l' = active /\ device_id_hash l' = Some (hashDeviceId d) /\
    revoke_reason l' = Some reason /\ revoked_at l' = Some now2.
Proof.
  intros Hk Hd Hr Hget Hst Hexp.
  assert (Hact : already_activated l = false).
  { unfold already_activated. rewrite Hst. reflexivity. }
  assert (Hrev : status_eqb (status l) revoked = false) by (rewrite Hst; reflexivity).
  unfold post_activate, post_revoke. race. cbn [answered option_map].
  split; [reflexivity|]. split; [reflexivity|].
  rewrite getLicenseByKey_logValidation, getLicenseByKey_activateLicense,
    getLicenseByKey_logActivity, getLicenseByKey_revokeLicense, Hget.
  eexists. split; [reflexivity|]. repeat split.
Qed.

End RouteProperties.

(** ** Worked examples for the further properties *)

Lemma writes_touch_one_key_witness :
  getLicenseByKey "L2" (activateLicense "L1" "h" 7 db_two) =
    getLicenseByKey "L2" db_two /\
  getLicenseByKey "L2" (updateValidation "L1" 7 db_two) =
    getLicenseByKey "L2" db_two /\
  getLicenseByKey "L2" (revokeLicense "L1" "lost" 7 db_two) =
    getLicenseByKey "L2" db_two /\
  getLicenseByKey "L2" (snd (deleteLicense "L1" db_two)) =
    getLicenseByKey "L2" db_two /\
  validation_logs (snd (deleteLicense "L1" db_two)) = validation_logs db_two /\
  activity_logs (snd (deleteLicense "L1" db_two)) = activity_logs db_two.
Proof.
  exact (writes_touch_one_key "L1" "L2" "h" "lost" 7 db_two eq_refl).
Defined.

Lemma createLicense_then_lookup_witness :
  exists db' l,
    createLicense data_L2 5 db_active = inr db' /\
    getLicenseByKey "L2" db' = Some l /\
    license_key l = "L2" /\ kiosk_name l = "kiosk-2" /\
    status l = pending /\ device_id_hash l = None /\
    issued_at l = 5 /\ expires_at l = 5000 /\
    activated_at l = None /\ last_validated_at l = None /\
    revoked_at l = None /\ revoke_reason l = None /\
    (forall k' l', getLicenseByKey k' db_active = Some l' ->
                   getLicenseByKey k' db' = Some l').
Proof.
  exact (createLicense_then_lookup data_L2 5 db_active eq_refl).
Defined.

Lemma createLicense_then_deleteLicense_witness :
  deleteLicense "L2"
    (mkDatabase
       [L1_active;
        mkLicense "L2" None "kiosk-2" None None None pending 5 5000
          None None None None 5] [] []) = (1%nat, db_active).
Proof.
  exact (createLicense_then_deleteLicense data_L2 5 db_active _ eq_refl eq_refl).
Defined.

Lemma activateLicense_after_revokeLicense_witness :
  exists l',
    getLicenseByKey "L1"
      (activateLicense "L1" "h" 30 (revokeLicense "L1" "lost" 20 db_active)) =
    Some l' /\
    status l' = active /\ device_id_hash l' = Some "h" /\
    revoke_reason l' = Some "lost" /\ revoked_at l' = Some 20 /\
    activated_at l' = Some 30.
Proof.
  exact (activateLicense_after_revokeLicense "L1" "h" "lost" 20 30 db_active
           L1_active eq_refl).
Defined.

Lemma generateLicenseKey_shape_witness :
  exists s0 s1 s2 s3,
    generateLicenseKey 2025 zero_bytes "KFC-KIO" "UK" =
    "KFC-KIO" ++ "-" ++ "UK" ++ "-" ++ NilZero.string_of_uint (N.to_uint 2025)
              ++ "-" ++ s0 ++ "-" ++ s1 ++ "-" ++ s2 ++ "-" ++ s3 /\
    is_segment s0 = true /\ is_segment s1 = true /\
    is_segment s2 = true /\ is_segment s3 = true.
Proof.
  exact (generateLicenseKey_shape 2025 zero_bytes "KFC-KIO" "UK"
           (fun _ => eq_refl)).
Defined.

Lemma generateLicenseKey_injective_witness :
  zero_bytes 3%nat = zero_then_ff 3%nat.
Proof.
  refine (generateLicenseKey_injective 2025 zero_bytes zero_then_ff "KFC-KIO" "UK"
            (fun _ => eq_refl) _ eq_refl 3%nat _).
  - intros i. unfold zero_then_ff. destruct (Nat.ltb i 4); reflexivity.
  - repeat constructor.
Defined.

Lemma device_routes_reject_missing_fields_witness :
  sample_activate 10 no_device db_pending =
    (res_status_json 400 (error_body "License key and device ID required"),
     db_pending) /\
  sample_validate 10 no_device db_pending =
    (res_status_json 400 (error_body "License key and device ID required"),
     db_pending).
Proof.
  exact (@device_routes_reject_missing_fields toy_platform 10 no_device
           db_pending eq_refl).
Defined.

Lemma unknown_key_is_logged_once_witness :
  fst (sample_activate 10 (kiosk_request "L9" "dev-A" None None) db_pending) =
    res_status_json 404
      [("error", JStr "License key not found");
       ("hint", JStr "Please generate a license first using the admin portal")] /\
  snd (sample_activate 10 (kiosk_request "L9" "dev-A" None None) db_pending) =
    mkDatabase [L1]
      [mkValidationLog "L9" (toy_sha "dev-A") "activation" false
         (Some "License key not found") None None] [] /\
  fst (sample_validate 10 (kiosk_request "L9" "dev-A" None None) db_pending) =
    res_status_json 404 (error_body "License not found") /\
  snd (sample_validate 10 (kiosk_request "L9" "dev-A" None None) db_pending) =
    mkDatabase [L1]
      [mkValidationLog "L9" (toy_sha "dev-A") "periodic" false
         (Some "License key not found") None None] [].
Proof.
  exact (@unknown_key_is_logged_once toy_platform 10 "L9" "dev-A" None None
           db_pending eq_refl eq_refl eq_refl).
Defined.

Lemma first_activation_binds_witness :
  succeeded (fst (sample_activate 10 dev_A db_pending)) = true /\
  getLicenseByKey "L1" (snd (sample_activate 10 dev_A db_pending)) =
    Some L1_active.
Proof.
  pose proof (@first_activation_binds toy_platform 10 "L1" "dev-A" None None
                db_pending L1 eq_refl eq_refl eq_refl eq_refl eq_refl eq_refl)
    as H.
  split; [exact (proj1 H)|reflexivity].
Defined.

Lemma requests_keep_keys_unique_witness :
  NoDup (map license_key (licenses (sample_handle_all sample_requests db_two))).
Proof.
  apply (@requests_keep_keys_unique toy_platform toy_cipher sample_requests db_two).
  cbn. repeat constructor; cbn; intuition discriminate.
Defined.

Lemma licenses_only_move_forward_witness :
  exists l',
    getLicenseByKey "L1" (sample_handle_all sample_requests db_pending) = Some l' /\
    evolves L1 l'.
Proof.
  exact (@licenses_only_move_forward toy_platform toy_cipher sample_requests
           db_pending "L1" L1 eq_refl eq_refl).
Defined.

Lemma bad_requests_change_nothing_witness :
  snd (@handle toy_platform toy_cipher (Validate 10 no_device) db_active) =
  db_active.
Proof.
  exact (@bad_requests_change_nothing toy_platform toy_cipher
           (Validate 10 no_device) db_active eq_refl).
Defined.




Lemma negative_validity_issues_an_expired_license_witness :
  fst (sample_activate 5
         (kiosk_request "KFC-KIO-UK-2025-0000-0000-0000-0000" "dev-A" None None)
         (snd (sample_generate 2025 zero_bytes 5 negative_days db_pending))) =
  Expired.
Proof.
  assert (Hrange : Z.abs (@expiry_of toy_platform 5 (Some (-1))) <= 8640000000000000)
    by (vm_compute; discriminate).
  assert (Hnow : 5 <= 5) by lia.
  exact (proj2 (proj2
           (@negative_validity_issues_an_expired_license toy_platform 2025
              zero_bytes 5 "kiosk-0" None None (-1) None None db_pending
              eq_refl eq_refl Hrange eq_refl))
           5 "dev-A" None None Hnow eq_refl).
Defined.

Lemma activation_in_flight_undoes_revocation_witness :
  let '(p1, p2, db') :=
    interleave [true; false; false; false; true; true] 10 20
      (sample_post_activate 10 dev_A) (post_revoke revoke_r1) db_pending in
  answered p2 = Some RevokeOk /\
  option_map succeeded (answered p1) = Some true /\
  exists l',
    getLicenseByKey "L1" db' = Some l' /\
    status l' = active /\ device_id_hash l' = Some (toy_sha "dev-A") /\
    revoke_reason l' = Some "r1" /\ revoked_at l' = Some 20.
Proof.
  exact (@activation_in_flight_undoes_revocation toy_platform 10 20 "L1" "dev-A"
           "r1" None None None None db_pending L1
           eq_refl eq_refl eq_refl eq_refl eq_refl eq_refl).
Defined.
